(** * An in-memory entity store: schema parsing and REST handler helpers

    A shallow embedding of three TypeScript units:
    - [parseModelDeclaration]   (the schema parser),
    - [generateRestHandlers.ts] ([getResponseStatusByErrorType],
      [getFilters] and the collection handler),
    - [removeInternalProperties] (the projection used on every response).

    Data model.  JavaScript values are a tagged universe [value]; objects
    are association lists in [Object.entries] order.  A property read
    consults own properties, with two exceptions where the code reads a
    member that every object inherits: [constructor], which the schema
    parser reads from the supplied value, and the members of
    [Object.prototype], which [getFilters] finds when it looks up a name
    taken from the request.  Numbers are integers or [NaN]: the code under
    study performs no arithmetic, it only tests numbers for truthiness and
    [isNaN], so the rounding of doubles plays no role.  Thrown exceptions
    are the [Err] results of a small error monad. *)

From Stdlib Require Import List String Ascii ZArith Bool Lia DecimalString.
Import ListNotations.
Local Open Scope string_scope.
Local Open Scope list_scope.
Set Warnings "-register-all".

(** ** JavaScript values and the primitive operations the sources use *)
Module JS.

Inductive number :=
| Num (z : Z)
| NaN.

Inductive value :=
| VUndefined
| VNull
| VBool (b : bool)
| VNum (n : number)
| VStr (s : string)
| VDate (time : Z)
| VArr (items : list value)
| VObj (entries : list (string * value)).

(** Induction on values, through the arrays and objects they nest. *)
Section ValueInduction.
Variable P : value -> Prop.
Hypothesis undefined_case : P VUndefined.
Hypothesis null_case : P VNull.
Hypothesis bool_case : forall b, P (VBool b).
Hypothesis number_case : forall n, P (VNum n).
Hypothesis string_case : forall s, P (VStr s).
Hypothesis date_case : forall time, P (VDate time).
Hypothesis array_case : forall items, Forall P items -> P (VArr items).
Hypothesis object_case :
  forall entries, Forall (fun entry => P (snd entry)) entries ->
                  P (VObj entries).

Fixpoint value_nested_ind (v : value) : P v :=
  match v with
  | VUndefined => undefined_case
  | VNull => null_case
  | VBool b => bool_case b
  | VNum n => number_case n
  | VStr s => string_case s
  | VDate time => date_case time
  | VArr items =>
      array_case items
        ((fix all (l : list value) : Forall P l :=
            match l with
            | [] => Forall_nil P
            | x :: l' => Forall_cons x (value_nested_ind x) (all l')
            end) items)
  | VObj entries =>
      object_case entries
        ((fix all (l : list (string * value))
            : Forall (fun entry => P (snd entry)) l :=
            match l with
            | [] => Forall_nil _
            | entry :: l' =>
                Forall_cons entry
                  (match entry as e return P (snd e) with
                   | (_, x) => value_nested_ind x
                   end)
                  (all l')
            end) entries)
  end.
End ValueInduction.

(** No [null] occurs in the value, at any depth. *)
Fixpoint null_free (v : value) : bool :=
  match v with
  | VNull => false
  | VArr items => forallb null_free items
  | VObj entries => forallb (fun entry => null_free (snd entry)) entries
  | _ => true
  end.

(** [isNaN(n)] *)
Definition isNaN (n : number) : bool :=
  match n with NaN => true | Num _ => false end.

Definition number_truthy (n : number) : bool :=
  match n with NaN => false | Num z => negb (Z.eqb z 0) end.

Definition string_truthy (s : string) : bool :=
  negb (String.eqb s "").

(** ToBoolean, as applied by [!!v], [v && ...] and [v || ...]. *)
Definition truthy (v : value) : bool :=
  match v with
  | VUndefined | VNull => false
  | VBool b => b
  | VNum n => number_truthy n
  | VStr s => string_truthy s
  | VDate _ | VArr _ | VObj _ => true
  end.

(** [Array.isArray(v)] *)
Definition isArray (v : value) : bool :=
  match v with VArr _ => true | _ => false end.

(** [v === undefined || v === null] *)
Definition nullish (v : value) : bool :=
  match v with VUndefined | VNull => true | _ => false end.

(** *** Objects as ordered association lists *)

(** [o[k]] on own properties; [None] stands for [undefined]. *)
Fixpoint obj_get {V : Type} (o : list (string * V)) (k : string) : option V :=
  match o with
  | [] => None
  | (k', v) :: o' => if String.eqb k' k then Some v else obj_get o' k
  end.

(** [o[k] = v]: an existing key keeps its position, a new key is appended. *)
Fixpoint obj_set {V : Type} (o : list (string * V)) (k : string) (v : V)
  : list (string * V) :=
  match o with
  | [] => [(k, v)]
  | (k', v') :: o' =>
      if String.eqb k' k then (k, v) :: o' else (k', v') :: obj_set o' k v
  end.

(** [k in o] for a plain object. *)
Definition obj_has {V : Type} (o : list (string * V)) (k : string) : bool :=
  match obj_get o k with Some _ => true | None => false end.

Definition keys {V : Type} (o : list (string * V)) : list string :=
  map fst o.

(** The canonical array index a property name denotes, if any. *)
Definition array_index (s : string) : option nat :=
  match NilEmpty.uint_of_string s with
  | Some u =>
      let n := Nat.of_uint u in
      if String.eqb (NilEmpty.string_of_uint (Nat.to_uint n)) s
      then Some n else None
  | None => None
  end.

Definition of_option (o : option value) : value :=
  match o with Some v => v | None => VUndefined end.

(** Own property [k] of a value that is neither [null] nor [undefined]. *)
Definition own_property (v : value) (k : string) : value :=
  match v with
  | VObj entries => of_option (obj_get entries k)
  | VArr items =>
      if String.eqb k "length" then VNum (Num (Z.of_nat (List.length items)))
      else match array_index k with
           | Some i => nth i items VUndefined
           | None => VUndefined
           end
  | VStr s =>
      if String.eqb k "length" then VNum (Num (Z.of_nat (String.length s)))
      else match array_index k with
           | Some i => match String.get i s with
                       | Some c => VStr (String c EmptyString)
                       | None => VUndefined
                       end
           | None => VUndefined
           end
  | _ => VUndefined
  end.

(** ToPropertyKey of a name that may be [undefined]. *)
Definition property_key (k : option string) : string :=
  match k with Some s => s | None => "undefined" end.

End JS.
Export JS.

(** ** Failures *)

Inductive error :=
| MultiplePrimaryKeys (modelName : string)
| RelationWithoutValue (modelName key : string)
| NoPrimaryKey
| TypeError
| HTTPBadRequest (modelName key : string).

Inductive result (A : Type) :=
| Ok (a : A)
| Err (e : error).
Arguments Ok {A} a.
Arguments Err {A} e.

Definition bind {A B : Type} (c : result A) (k : A -> result B) : result B :=
  match c with
  | Ok a => k a
  | Err e => Err e
  end.

Notation "x <- c ;; k" := (bind c (fun x => k))
  (at level 61, c at next level, right associativity).

(** [l.reduce(f, acc)] for a callback that may throw. *)
Section Reduce.
Context {A B : Type} (f : A -> B -> result A).

Fixpoint reduce (l : list B) (acc : A) : result A :=
  match l with
  | [] => Ok acc
  | x :: l' => acc' <- f acc x ;; reduce l' acc'
  end.
End Reduce.

(** [v[k]]: reading a property of [null] or [undefined] throws. *)
Definition js_index (v : value) (k : option string) : result value :=
  if nullish v then Err TypeError else Ok (own_property v (property_key k)).

(** [l.map(f)] for a callback that may throw. *)
Fixpoint map_result {A B : Type} (f : A -> result B) (l : list A)
  : result (list B) :=
  match l with
  | [] => Ok []
  | x :: l' => y <- f x ;; ys <- map_result f l' ;; Ok (y :: ys)
  end.

(** ** The schema parser *)
Module ParseModelDeclaration.

Inductive RelationKind := OneOf | ManyOf.

(** The values of a model declaration: [primaryKey(getter)] yields
    [{ isPrimaryKey: true, getValue }], [oneOf]/[manyOf] yield a relation
    definition [{ kind, modelName, unique }], anything else is a getter
    function.  A getter is represented by the value it generates. *)
Inductive descriptor :=
| PrimaryKeyDecl (getValue : value)
| RelationDecl (kind : RelationKind) (modelName : string) (unique : bool)
| ValueGetter (generated : value).

Definition ModelDeclaration := list (string * descriptor).
Definition ModelDictionary := list (string * ModelDeclaration).

(** ['isPrimaryKey' in d] *)
Definition has_isPrimaryKey (d : descriptor) : bool :=
  match d with PrimaryKeyDecl _ => true | _ => false end.

(** ['kind' in d] *)
Definition has_kind (d : descriptor) : bool :=
  match d with RelationDecl _ _ _ => true | _ => false end.

(** [d.kind], [d.modelName], [d.unique]; [None] is [undefined]. *)
Definition get_kind (d : descriptor) : option RelationKind :=
  match d with RelationDecl k _ _ => Some k | _ => None end.

Definition get_modelName (d : descriptor) : option string :=
  match d with RelationDecl _ m _ => Some m | _ => None end.

Definition get_unique (d : descriptor) : option bool :=
  match d with RelationDecl _ _ u => Some u | _ => None end.

Definition kind_is (d : descriptor) (k : RelationKind) : bool :=
  match get_kind d, k with
  | Some OneOf, OneOf | Some ManyOf, ManyOf => true
  | _, _ => false
  end.

(** The value produced for a field that is seeded from its descriptor:
    [d.getValue()] for a primary key, [d()] for a getter. *)
Definition generate (d : descriptor) : result value :=
  match d with
  | PrimaryKeyDecl getValue => Ok getValue
  | ValueGetter generated => Ok generated
  | RelationDecl _ _ _ => Err TypeError
  end.

Record Ref := {
  __type : option string;
  __primaryKey : option string;
  __nodeId : value
}.

Record Relation := mkRelation {
  kind : RelationKind;
  modelName : option string;
  unique : option bool;
  refs : list Ref
}.

Record ParsedModelDeclaration := {
  primaryKey : option string;
  properties : list (string * value);
  relations : list (string * Relation)
}.

(** Modelled from the spec: the helper [invariant] of [utils/invariant] is
    not among the sources.  The parser must fail when a primary key was
    already assigned earlier in the parse, so [invariant(predicate, message)]
    throws exactly when its predicate holds. *)
Definition invariant (predicate : bool) (e : error) : result unit :=
  if predicate then Err e else Ok tt.

(** The plain scalars of the specification: a string, a number, a boolean
    or an instance of [Date].  The test the parser performs is
    [is_plain_initial_value] below, which reads the name of the value's
    constructor; the two differ on objects that have a [constructor]
    property of their own. *)
Definition is_plain_value (v : value) : bool :=
  match v with
  | VStr _ | VNum _ | VBool _ | VDate _ => true
  | _ => false
  end.

(** [v?.constructor.name]: nothing is read from [undefined] or [null];
    the constructor of an object is its own [constructor] property when it
    has one, and otherwise the one it inherits; reading [name] from a
    constructor that is [null] or [undefined] throws. *)
Definition constructor_name (v : value) : result value :=
  match v with
  | VUndefined | VNull => Ok VUndefined
  | VBool _ => Ok (VStr "Boolean")
  | VNum _ => Ok (VStr "Number")
  | VStr _ => Ok (VStr "String")
  | VDate _ => Ok (VStr "Date")
  | VArr _ => Ok (VStr "Array")
  | VObj entries =>
      match obj_get entries "constructor" with
      | Some constructor => js_index constructor (Some "name")
      | None => Ok (VStr "Object")
      end
  end.

(** [v === s] for a string [s]. *)
Definition is_string (v : value) (s : string) : bool :=
  match v with
  | VStr t => String.eqb t s
  | _ => false
  end.

(** [typeof v === 'string' || typeof v === 'number' ||
     typeof v === 'boolean' || v?.constructor.name === 'Date'] *)
Definition is_plain_initial_value (v : value) : result bool :=
  match v with
  | VStr _ | VNum _ | VBool _ => Ok true
  | _ => name <- constructor_name v ;; Ok (is_string name "Date")
  end.

Section Parser.

(** [findPrimaryKey] of [utils/findPrimaryKey] is not among the sources:
    it is a parameter.  It receives [dictionary[name]] ([None] when that
    is [undefined]); the outer [None] of its result stands for a thrown
    failure, the inner one for [undefined]. *)
Variable findPrimaryKey : option ModelDeclaration -> option (option string).

Variable dictionary : ModelDictionary.
Variable modelName : string.
Variable declaration : ModelDeclaration.
Variable initialValues : option (list (string * value)).

(** [initialValues?.[key]] *)
Definition initial_value (key : string) : value :=
  match initialValues with
  | None => VUndefined
  | Some o => of_option (obj_get o key)
  end.

Definition set_property (acc : ParsedModelDeclaration) (key : string)
           (v : value) : ParsedModelDeclaration :=
  {| primaryKey := primaryKey acc;
     properties := obj_set (properties acc) key v;
     relations := relations acc |}.

Definition set_relation (acc : ParsedModelDeclaration) (key : string)
           (r : Relation) : ParsedModelDeclaration :=
  {| primaryKey := primaryKey acc;
     properties := properties acc;
     relations := obj_set (relations acc) key r |}.

(** [!!acc.primaryKey] *)
Definition primaryKey_assigned (acc : ParsedModelDeclaration) : bool :=
  match primaryKey acc with
  | Some k => string_truthy k
  | None => false
  end.

(** [{ __type, __primaryKey, __nodeId: entityRef[relationPrimarykey] }] *)
Definition make_ref (target : option string) (pk : option string)
           (entityRef : value) : result Ref :=
  nodeId <- js_index entityRef pk ;;
  Ok {| __type := target; __primaryKey := pk; __nodeId := nodeId |}.

(** The callback given to [Object.entries(declaration).reduce].  After the
    primary-key and plain-value branches, [relationDefinition] is
    [declaration[key]], and the test [exactValue && relationDefinition]
    holds when the value is truthy and the declaration has the key: a
    descriptor, being an object or a function, is truthy. *)
Definition reducer (acc : ParsedModelDeclaration)
           (entry : string * descriptor) : result ParsedModelDeclaration :=
  let '(key, valueGetter) := entry in
  let exactValue := initial_value key in
  if has_isPrimaryKey valueGetter then
    _ <- invariant (primaryKey_assigned acc) (MultiplePrimaryKeys modelName) ;;
    v <- (if truthy exactValue then Ok exactValue else generate valueGetter) ;;
    Ok {| primaryKey := Some key;
          properties := obj_set (properties acc) key v;
          relations := relations acc |}
  else
    plain <- is_plain_initial_value exactValue ;;
    if plain then
      Ok (set_property acc key exactValue)
    else
    match (if truthy exactValue then obj_get declaration key else None) with
    | Some relationDefinition =>
        match
          findPrimaryKey
            (obj_get dictionary
                     (property_key (get_modelName relationDefinition)))
        with
        | None => Err NoPrimaryKey
        | Some relationPrimarykey =>
            match exactValue with
            | VArr items =>
                if kind_is relationDefinition ManyOf then
                  refs <- map_result
                            (make_ref (get_modelName relationDefinition)
                                      relationPrimarykey) items ;;
                  Ok (set_relation acc key
                        (mkRelation ManyOf
                           (get_modelName relationDefinition)
                           (get_unique relationDefinition)
                           refs))
                else Ok (set_property acc key exactValue)
            | _ =>
                if kind_is relationDefinition OneOf then
                  ref <- make_ref (get_modelName relationDefinition)
                                  relationPrimarykey exactValue ;;
                  Ok (set_relation acc key
                        (mkRelation OneOf
                           (get_modelName relationDefinition)
                           (get_unique relationDefinition)
                           [ref]))
                else Ok (set_property acc key exactValue)
            end
        end
    | None =>
        if has_kind valueGetter then
          Err (RelationWithoutValue modelName key)
        else
          v <- generate valueGetter ;;
          Ok (set_property acc key v)
    end.

Definition empty_parse : ParsedModelDeclaration :=
  {| primaryKey := None; properties := []; relations := [] |}.

Definition parseModelDeclaration : result ParsedModelDeclaration :=
  reduce reducer declaration empty_parse.

End Parser.

(** The names of the fields a declaration flags as primary key, in
    declaration order. *)
Definition primaryKeyFields (declaration : ModelDeclaration) : list string :=
  keys (filter (fun entry => has_isPrimaryKey (snd entry)) declaration).

End ParseModelDeclaration.

(** ** Projection of an internal entity *)
Module RemoveInternalProperties.

(** [typeof value === 'object' && '__type' in value]: [typeof null] is
    ['object'] and [in] throws on [null]. *)
Definition isInternalEntity (value : value) : result bool :=
  match value with
  | VNull => Err TypeError
  | VObj entries => Ok (obj_has entries "__type")
  | _ => Ok false
  end.

(** [key.startsWith('__')] *)
Definition startsWith__ (key : string) : bool :=
  String.prefix "__" key.

(** [removeInternalProperties] on a value.  Only objects reach it: its
    argument is an entity, and the recursive calls are guarded by
    [isInternalEntity], which holds of objects only; the branches for
    other values are never taken. *)
Fixpoint removeInternalProperties_value (entity : value)
  : result (list (string * value)) :=
  match entity with
  | VObj entries =>
      reduce
        (fun result_ entry =>
           let '(key, value) := entry in
           if negb (startsWith__ key) then
             internal <- isInternalEntity value ;;
             if internal then
               stripped <- removeInternalProperties_value value ;;
               Ok (obj_set result_ key (VObj stripped))
             else
               match value with
               | VArr items =>
                   arr <- reduce
                            (fun acc reletionalEntity =>
                               internal <- isInternalEntity reletionalEntity ;;
                               if internal then
                                 stripped <- removeInternalProperties_value
                                               reletionalEntity ;;
                                 Ok (acc ++ [VObj stripped])
                               else Ok (acc ++ [reletionalEntity]))
                            items [] ;;
                   Ok (obj_set result_ key (VArr arr))
               | _ => Ok (obj_set result_ key value)
               end
           else Ok result_)
        entries []
  | VUndefined | VNull => Err TypeError
  | _ => Ok []
  end.

Definition removeInternalProperties (entity : list (string * value))
  : result (list (string * value)) :=
  removeInternalProperties_value (VObj entity).

(** The callback of the inner [reduce], over the elements of an array. *)
Definition strip_item (acc : list value) (reletionalEntity : value)
  : result (list value) :=
  internal <- isInternalEntity reletionalEntity ;;
  if internal then
    stripped <- removeInternalProperties_value reletionalEntity ;;
    Ok (acc ++ [VObj stripped])
  else Ok (acc ++ [reletionalEntity]).

(** The callback of the outer [reduce], over the entries of the entity. *)
Definition strip_entry (result_ : list (string * value))
           (entry : string * value) : result (list (string * value)) :=
  let '(key, value) := entry in
  if negb (startsWith__ key) then
    internal <- isInternalEntity value ;;
    if internal then
      stripped <- removeInternalProperties_value value ;;
      Ok (obj_set result_ key (VObj stripped))
    else
      match value with
      | VArr items =>
          arr <- reduce strip_item items [] ;;
          Ok (obj_set result_ key (VArr arr))
      | _ => Ok (obj_set result_ key value)
      end
  else Ok result_.

(** What the projection makes of an element of an array: an internal
    entity (an object with a [__type] key) is stripped, anything else is
    passed through. *)
Definition item_projection (item item' : value) : Prop :=
  match item with
  | VObj entries =>
      if obj_has entries "__type"
      then exists stripped,
          removeInternalProperties entries = Ok stripped /\
          item' = VObj stripped
      else item' = item
  | _ => item' = item
  end.

(** What the projection makes of the value of a property: an internal
    entity is stripped, the elements of an array are projected one by one,
    anything else is passed through. *)
Definition value_projection (value value' : value) : Prop :=
  match value with
  | VArr items =>
      exists items', value' = VArr items' /\
                     Forall2 item_projection items items'
  | _ => item_projection value value'
  end.

(** Some object inside the value, at any depth, has a key that begins with
    two underscores. *)
Fixpoint has_internal_key (v : value) : bool :=
  match v with
  | VObj entries =>
      existsb (fun entry => startsWith__ (fst entry)
                            || has_internal_key (snd entry)) entries
  | VArr items => existsb has_internal_key items
  | _ => false
  end.

End RemoveInternalProperties.

(** ** The REST handlers *)
Module GenerateRestHandlers.
Import ParseModelDeclaration RemoveInternalProperties.

(** The value of a TypeScript enum member: a number or a string. *)
Inductive enum_value :=
| EnumNum (n : Z)
| EnumStr (s : string).

(** [a === b] on enum member values. *)
Definition enum_eqb (a b : enum_value) : bool :=
  match a, b with
  | EnumNum x, EnumNum y => Z.eqb x y
  | EnumStr x, EnumStr y => String.eqb x y
  | _, _ => false
  end.

(** [t === member], where [t] may be [undefined]. *)
Definition type_is (t : option enum_value) (member : enum_value) : bool :=
  match t with
  | Some a => enum_eqb a member
  | None => false
  end.

(** [enum HTTPErrorType { BadRequest }]: a numeric enum, whose first
    member is 0. *)
Definition HTTPErrorType_BadRequest : enum_value := EnumNum 0.

(** An [OperationError] or [HTTPError]: [type] is [undefined] on a failure
    that is neither. *)
Record OperationError := {
  type : option enum_value;
  message : string
}.

Section ErrorType.

(** [OperationErrorType] is declared in [errors/OperationError], which is
    not among the sources: the values of its members are parameters. *)
Variable OperationErrorType_EntityNotFound : enum_value.
Variable OperationErrorType_DuplicatePrimaryKey : enum_value.

(** [switch (error.type)]: the cases are compared in order with [===]. *)
Definition getResponseStatusByErrorType (error : OperationError) : Z :=
  if type_is (type error) OperationErrorType_EntityNotFound then 404%Z
  else if type_is (type error) OperationErrorType_DuplicatePrimaryKey then 409%Z
  else if type_is (type error) HTTPErrorType_BadRequest then 400%Z
  else 500%Z.

End ErrorType.

(** *** Query strings *)

(** [URLSearchParams]: the name/value pairs in the order they were given. *)
Definition URLSearchParams := list (string * string).

(** [searchParams.get(name)]: the first value given for the name. *)
Definition searchParams_get (searchParams : URLSearchParams) (name : string)
  : option string :=
  obj_get searchParams name.

(** [l.includes(k)] *)
Definition includes (l : list string) (k : string) : bool :=
  existsb (String.eqb k) l.

(** White space skipped by [parseInt]; a string is a sequence of code
    units below 256. *)
Definition is_white_space (c : ascii) : bool :=
  let n := nat_of_ascii c in
  (Nat.leb 9 n && Nat.leb n 13) || Nat.eqb n 32 || Nat.eqb n 160.

Fixpoint trim_start (s : string) : string :=
  match s with
  | String c s' => if is_white_space c then trim_start s' else s
  | EmptyString => s
  end.

Definition digit_value (c : ascii) : option Z :=
  let n := nat_of_ascii c in
  if Nat.leb 48 n && Nat.leb n 57 then Some (Z.of_nat (n - 48)) else None.

(** The value of the longest prefix of decimal digits, [None] if empty. *)
Fixpoint digits_prefix (s : string) (acc : option Z) : option Z :=
  match s with
  | String c s' =>
      match digit_value c with
      | Some d =>
          digits_prefix s'
            (Some (10 * (match acc with Some a => a | None => 0 end) + d)%Z)
      | None => acc
      end
  | EmptyString => acc
  end.

(** [parseInt(s, 10)] *)
Definition parseInt (s : string) : number :=
  let s := trim_start s in
  let '(sign, s) :=
    match s with
    | String "-" s' => ((-1)%Z, s')
    | String "+" s' => (1%Z, s')
    | _ => (1%Z, s)
    end in
  match digits_prefix s None with
  | Some z => Num (sign * z)
  | None => NaN
  end.

(** [{ equals: value }] *)
Record QuerySelector := {
  equals : string
}.

Definition QuerySelectorWhere := list (string * QuerySelector).

(** The argument of [model.findMany]. *)
Record FindManyOptions := mkOptions {
  where_ : QuerySelectorWhere;
  take : option number;
  skip : option number;
  cursor : option string
}.

Definition paginationKeys : list string := ["cursor"; "skip"; "take"].

(** The names of the members every object inherits from
    [Object.prototype]. *)
Definition object_prototype_members : list string :=
  ["constructor"; "__defineGetter__"; "__defineSetter__"; "hasOwnProperty";
   "__lookupGetter__"; "__lookupSetter__"; "isPrototypeOf";
   "propertyIsEnumerable"; "toString"; "valueOf"; "__proto__";
   "toLocaleString"].

Definition inherited (key : string) : bool :=
  includes object_prototype_members key.

(** [declaration[key]] as a condition: a descriptor of the schema, or a
    member the declaration object inherits; both are truthy. *)
Definition declaration_has (declaration : ModelDeclaration) (key : string)
  : bool :=
  obj_has declaration key || inherited key.

(** [filters[key] = selector]: an assignment to [__proto__] replaces the
    prototype of [filters] and creates no property of its own. *)
Definition assign_filter (filters : QuerySelectorWhere) (key : string)
           (selector : QuerySelector) : QuerySelectorWhere :=
  if String.eqb key "__proto__" then filters else obj_set filters key selector.

(** [Object.assign(options, { take, skip })] *)
Definition assign_take_skip (options : FindManyOptions)
           (t : option number) (s : number) : FindManyOptions :=
  mkOptions (where_ options) t (Some s) (cursor options).

(** [Object.assign(options, { take, cursor })] *)
Definition assign_take_cursor (options : FindManyOptions)
           (t : option number) (c : option string) : FindManyOptions :=
  mkOptions (where_ options) t (skip options) c.

Section Handlers.

Variable modelName : string.
Variable declaration : ModelDeclaration.

(** The callback given to [searchParams.forEach]. *)
Definition addFilter (filters : QuerySelectorWhere)
           (param : string * string) : result QuerySelectorWhere :=
  let '(key, value) := param in
  if includes paginationKeys key then Ok filters
  else if declaration_has declaration key then
    Ok (assign_filter filters key {| equals := value |})
  else Err (HTTPBadRequest modelName key).

Definition getFilters (searchParams : URLSearchParams)
  : result QuerySelectorWhere :=
  reduce addFilter searchParams [].

(** [take && !isNaN(take)], where [take] is [null] or a number. *)
Definition take_given (t : option number) : bool :=
  match t with
  | Some n => number_truthy n && negb (isNaN n)
  | None => false
  end.

(** [cursor] as a condition, where [cursor] is [null] or a string. *)
Definition cursor_given (c : option string) : bool :=
  match c with
  | Some s => string_truthy s
  | None => false
  end.

(** The body of the collection handler up to the call of
    [model.findMany]: the options that call receives. *)
Definition listOptions (searchParams : URLSearchParams)
  : result FindManyOptions :=
  let cursor := searchParams_get searchParams "cursor" in
  let rawSkip := searchParams_get searchParams "skip" in
  let rawTake := searchParams_get searchParams "take" in
  filters <- getFilters searchParams ;;
  let skip := parseInt (match rawSkip with Some s => s | None => "0" end) in
  let take := option_map parseInt rawTake in
  let options := mkOptions filters None None None in
  let options :=
    if take_given take && negb (isNaN skip)
    then assign_take_skip options take skip
    else options in
  let options :=
    if take_given take && cursor_given cursor
    then assign_take_cursor options take cursor
    else options in
  Ok options.

(** [model.findMany] of the store the handlers are generated for. *)
Variable findMany : FindManyOptions -> result (list (list (string * value))).

(** The collection handler: the records [findMany] returns for these
    options, each projected for the response body. *)
Definition listHandler (searchParams : URLSearchParams)
  : result (list (list (string * value))) :=
  options <- listOptions searchParams ;;
  records <- findMany options ;;
  map_result removeInternalProperties records.

End Handlers.

End GenerateRestHandlers.

(** ** The resolvers of the generated handlers *)
Module Resolvers.
Import ParseModelDeclaration RemoveInternalProperties GenerateRestHandlers.

(** A resolver returns, or throws an error object. *)
Inductive outcome (A : Type) :=
| Returns (a : A)
| Throws (error : OperationError).
Arguments Returns {A} a.
Arguments Throws {A} error.

(** The transformers a resolver hands to [res], in the order it gives
    them. *)
Inductive transformer :=
| ctx_status (code : Z)
| ctx_json (body : value).

Definition response := list transformer.

(** The request, as far as the resolvers read it: [req.url.searchParams],
    [req.params] and [req.body]. *)
Record Request := {
  searchParams : URLSearchParams;
  params : list (string * string);
  body : value
}.

(** A string between double quotes. *)
Definition quoted (s : string) : string :=
  String (ascii_of_nat 34) (s ++ String (ascii_of_nat 34) EmptyString)%string.

(** The [HTTPError] that [getFilters] constructs: its type is
    [HTTPErrorType.BadRequest], its message names the model and the
    property. *)
Definition badRequest (modelName key : string) : OperationError :=
  {| type := Some HTTPErrorType_BadRequest;
     message := ("Failed to query the " ++ quoted modelName
                 ++ " model: unknown property " ++ quoted key ++ ".")%string |}.

(** [{ equals: id }] *)
Record WeakQuerySelector := {
  equals : value
}.

(** The argument of [model.findFirst], [model.update] and [model.delete]. *)
Record Query := {
  strict : bool;
  where_ : list (string * WeakQuerySelector);
  data : option value
}.

Section Resolvers.

(** The members of [OperationErrorType], as in [getResponseStatusByErrorType]. *)
Variable OperationErrorType_EntityNotFound : enum_value.
Variable OperationErrorType_DuplicatePrimaryKey : enum_value.

(** The error object of a failure that is not an [HTTPError]: a native
    [TypeError], whose message is the engine's. *)
Variable nativeError : error -> OperationError.

Variable modelName : string.
Variable modelDeclaration : ModelDeclaration.

(** [findPrimaryKey(modelDeclaration)!], computed once when the handlers
    are generated. *)
Variable primaryKey : option string.

(** The store the handlers are generated for.  [findFirst], [update] and
    [delete] return an entity or [null]. *)
Variable findMany : FindManyOptions -> outcome (list (list (string * value))).
Variable findFirst : Query -> outcome (option (list (string * value))).
Variable create : value -> outcome (list (string * value)).
Variable update : Query -> outcome (option (list (string * value))).
Variable delete : Query -> outcome (option (list (string * value))).

Definition thrown (e : error) : OperationError :=
  match e with
  | HTTPBadRequest model key => badRequest model key
  | _ => nativeError e
  end.

Definition andThen {A B : Type} (c : outcome A) (k : A -> outcome B)
  : outcome B :=
  match c with
  | Returns a => k a
  | Throws error => Throws error
  end.

(** A computation of the functions modelled above, inside a resolver. *)
Definition run {A : Type} (c : result A) : outcome A :=
  match c with
  | Ok a => Returns a
  | Err e => Throws (thrown e)
  end.

(** [withErrors(handler)]: the response of the handler, or the status and
    message of what it throws. *)
Definition withErrors (handler : Request -> outcome response)
           (req : Request) : response :=
  match handler req with
  | Returns res => res
  | Throws error =>
      [ctx_status (getResponseStatusByErrorType
                     OperationErrorType_EntityNotFound
                     OperationErrorType_DuplicatePrimaryKey error);
       ctx_json (VObj [("message", VStr (message error))])]
  end.

(** [removeInternalProperties(entity)] on what the store returned; on
    [null], [Object.entries] throws. *)
Definition project (entity : option (list (string * value)))
  : outcome value :=
  match entity with
  | Some e => andThen (run (removeInternalProperties e))
                      (fun stripped => Returns (VObj stripped))
  | None => Throws (thrown TypeError)
  end.

(** [{ [primaryKey]: { equals: req.params[primaryKey] } }] *)
Definition whereId (req : Request) : list (string * WeakQuerySelector) :=
  [(property_key primaryKey,
    {| equals := match obj_get (params req) (property_key primaryKey) with
                 | Some id => VStr id
                 | None => VUndefined
                 end |})].

(** GET on the collection. *)
Definition listResolver (req : Request) : outcome response :=
  andThen (run (listOptions modelName modelDeclaration (searchParams req)))
    (fun options =>
       andThen (findMany options)
         (fun records =>
            andThen (run (map_result removeInternalProperties records))
              (fun bodies => Returns [ctx_json (VArr (map VObj bodies))]))).

(** GET on one entity. *)
Definition getResolver (req : Request) : outcome response :=
  andThen (findFirst {| strict := true; where_ := whereId req; data := None |})
    (fun entity =>
       andThen (project entity) (fun b => Returns [ctx_json b])).

(** POST on the collection. *)
Definition postResolver (req : Request) : outcome response :=
  andThen (create (body req))
    (fun createdEntity =>
       andThen (project (Some createdEntity))
               (fun b => Returns [ctx_status 201; ctx_json b])).

(** PUT on one entity. *)
Definition putResolver (req : Request) : outcome response :=
  andThen (update {| strict := true; where_ := whereId req;
                     data := Some (body req) |})
    (fun updatedEntity =>
       andThen (project updatedEntity) (fun b => Returns [ctx_json b])).

(** DELETE on one entity. *)
Definition deleteResolver (req : Request) : outcome response :=
  andThen (delete {| strict := true; where_ := whereId req; data := None |})
    (fun deletedEntity =>
       andThen (project deletedEntity) (fun b => Returns [ctx_json b])).

End Resolvers.

End Resolvers.

(** ** Sample schemas and entities *)
Module Examples.
Import ParseModelDeclaration.

(** Modelled from the spec: the primary-key resolver [findPrimaryKey] of
    [utils/findPrimaryKey] is not among the sources.  Given a model schema
    it returns the name of the field whose descriptor is flagged primary
    key, and fails if none is flagged. *)
Definition findPrimaryKey_spec (declaration : option ModelDeclaration)
  : option (option string) :=
  match declaration with
  | Some d =>
      match primaryKeyFields d with
      | k :: _ => Some (Some k)
      | [] => None
      end
  | None => None
  end.

Definition userDeclaration : ModelDeclaration :=
  [("id", PrimaryKeyDecl (VStr "user-generated"));
   ("firstName", ValueGetter (VStr "John"))].

Definition postDeclaration : ModelDeclaration :=
  [("id", PrimaryKeyDecl (VStr "post-generated"));
   ("title", ValueGetter (VStr "Untitled"));
   ("author", RelationDecl OneOf "user" false);
   ("likes", RelationDecl ManyOf "user" false)].

Definition dictionary : ModelDictionary :=
  [("user", userDeclaration); ("post", postDeclaration)].

(** Two fields flagged as primary key. *)
Definition twoKeys : ModelDeclaration :=
  [("id", PrimaryKeyDecl (VStr "generated-id"));
   ("slug", PrimaryKeyDecl (VStr "generated-slug"))].

(** Two fields flagged as primary key, after a relation. *)
Definition relationThenTwoKeys : ModelDeclaration :=
  ("author", RelationDecl OneOf "user" false) :: twoKeys.

(** Two fields flagged as primary key, before a relation. *)
Definition twoKeysThenRelation : ModelDeclaration :=
  twoKeys ++ [("author", RelationDecl OneOf "user" false)].

Definition alice : value :=
  VObj [("__type", VStr "user"); ("__primaryKey", VStr "id");
        ("id", VStr "user-1"); ("firstName", VStr "Alice")].

Definition bob : value :=
  VObj [("__type", VStr "user"); ("__primaryKey", VStr "id");
        ("id", VStr "user-2"); ("firstName", VStr "Bob")].

(** A stored post: bookkeeping fields, a related entity, an array of
    related entities and plain data. *)
Definition storedPost : list (string * value) :=
  [("__type", VStr "post"); ("__primaryKey", VStr "id");
   ("id", VStr "post-1");
   ("author", alice);
   ("likes", VArr [bob; VStr "anonymous"; alice]);
   ("publishedAt", VDate 1617235200000)].

(** A stored post with an object that is not an internal entity and with
    an array nested in an array. *)
Definition storedPostWithNesting : list (string * value) :=
  [("__type", VStr "post"); ("__primaryKey", VStr "id");
   ("id", VStr "post-1");
   ("revision", VObj [("__v", VNum (Num 3))]);
   ("groups", VArr [VArr [alice]])].

End Examples.

(** ** Notions used to state further properties *)
Module Notions.
Import ParseModelDeclaration.

(** The value a descriptor generates when its field is seeded:
    [getValue()] of a primary key, the getter's own result otherwise (a
    relation generates nothing). *)
Definition seeded_value (d : descriptor) : value :=
  match d with
  | PrimaryKeyDecl getValue => getValue
  | ValueGetter generated => generated
  | RelationDecl _ _ _ => VUndefined
  end.

(** The properties of an entity whose fields are all seeded. *)
Definition seeded_properties (declaration : ModelDeclaration)
  : list (string * value) :=
  map (fun entry => (fst entry, seeded_value (snd entry))) declaration.

(** The query-string parameters that are not pagination keys. *)
Definition without_pagination
           (searchParams : GenerateRestHandlers.URLSearchParams)
  : GenerateRestHandlers.URLSearchParams :=
  filter (fun param =>
            negb (GenerateRestHandlers.includes
                    GenerateRestHandlers.paginationKeys (fst param)))
         searchParams.

(** An array element the projection passes through: not [null] and not
    an internal entity. *)
Definition is_external_item (item : value) : bool :=
  match item with
  | VNull => false
  | VObj entries => negb (obj_has entries "__type")
  | _ => true
  end.

(** A property value the projection passes through. *)
Definition is_external_value (v : value) : bool :=
  match v with
  | VArr items => forallb is_external_item items
  | _ => is_external_item v
  end.

(** An entity the projection has nothing to remove from: no key begins
    with two underscores and every value is passed through, being neither
    [null], nor an object with a [__type] key, nor an array that holds one
    of these.  Objects without a [__type] key are not looked into. *)
Definition is_external (entity : list (string * value)) : bool :=
  forallb (fun entry =>
             negb (RemoveInternalProperties.startsWith__ (fst entry))
             && is_external_value (snd entry))
          entity.

End Notions.

(** * Properties *)

(** ** Association lists and the error monad *)

Lemma obj_get_set_eq {V : Type} (o : list (string * V)) k v :
  obj_get (obj_set o k v) k = Some v.
Proof.
  induction o as [|[k' v'] o IH]; simpl.
  - now rewrite String.eqb_refl.
  - destruct (String.eqb k' k) eqn:E; simpl.
    + now rewrite String.eqb_refl.
    + now rewrite E.
Qed.

Lemma obj_get_set_neq {V : Type} (o : list (string * V)) k k' v :
  k <> k' -> obj_get (obj_set o k v) k' = obj_get o k'.
Proof.
  intros Hneq. induction o as [|[k0 v0] o IH]; simpl.
  - destruct (String.eqb k k') eqn:E; [apply String.eqb_eq in E; contradiction | reflexivity].
  - destruct (String.eqb k0 k) eqn:E; simpl.
    + apply String.eqb_eq in E; subst k0.
      destruct (String.eqb k k') eqn:E'; [apply String.eqb_eq in E'; contradiction | reflexivity].
    + destruct (String.eqb k0 k'); [reflexivity | exact IH].
Qed.

Lemma obj_get_notin {V : Type} (o : list (string * V)) k :
  ~ In k (keys o) -> obj_get o k = None.
Proof.
  induction o as [|[k' v'] o IH]; simpl; intros Hn; [reflexivity|].
  destruct (String.eqb k' k) eqn:E.
  - apply String.eqb_eq in E. exfalso. apply Hn. now left.
  - apply IH. intros Hin. apply Hn. now right.
Qed.

Lemma obj_get_in {V : Type} (o : list (string * V)) k v :
  NoDup (keys o) -> In (k, v) o -> obj_get o k = Some v.
Proof.
  induction o as [|[k' v'] o IH]; simpl; intros Hnd Hin; [contradiction|].
  inversion Hnd as [|? ? Hnotin Hnd']; subst.
  destruct Hin as [Heq | Hin].
  - inversion Heq; subst. now rewrite String.eqb_refl.
  - destruct (String.eqb k' k) eqn:E.
    + apply String.eqb_eq in E; subst k'.
      exfalso. apply Hnotin. change k with (fst (k, v)). now apply in_map.
    + now apply IH.
Qed.

Lemma reduce_app {A B : Type} (f : A -> B -> result A) l1 l2 acc :
  reduce f (l1 ++ l2) acc = (acc' <- reduce f l1 acc ;; reduce f l2 acc').
Proof.
  revert acc. induction l1 as [|x l1 IH]; intros acc; simpl; [reflexivity|].
  destruct (f acc x); simpl; [apply IH | reflexivity].
Qed.

Lemma reduce_cons {A B : Type} (f : A -> B -> result A) x l acc :
  reduce f (x :: l) acc = (acc' <- f acc x ;; reduce f l acc').
Proof. reflexivity. Qed.

Lemma keys_app {V : Type} (o1 o2 : list (string * V)) :
  keys (o1 ++ o2) = keys o1 ++ keys o2.
Proof. apply map_app. Qed.

(** A declaration whose keys are distinct splits around each of its
    fields, the field's name occurring on neither side. *)
Lemma split_field {V : Type} (o : list (string * V)) k v :
  NoDup (keys o) -> In (k, v) o ->
  exists before after,
    o = before ++ (k, v) :: after /\
    ~ In k (keys before) /\ ~ In k (keys after).
Proof.
  intros Hnd Hin. apply in_split in Hin. destruct Hin as (before & after & ->).
  exists before, after. split; [reflexivity|].
  rewrite keys_app in Hnd. simpl in Hnd.
  apply NoDup_remove_2 in Hnd.
  split; intros H; apply Hnd; apply in_or_app; [left | right]; exact H.
Qed.

(** ** The schema parser, field by field *)

Import ParseModelDeclaration.

Lemma plain_value_is_plain v :
  is_plain_value v = true -> is_plain_initial_value v = Ok true.
Proof. destruct v; simpl; intros H; try discriminate; reflexivity. Qed.

Lemma nullish_is_not_plain v :
  nullish v = true -> is_plain_initial_value v = Ok false.
Proof. destruct v; simpl; intros H; try discriminate; reflexivity. Qed.

Lemma array_is_not_plain items : is_plain_initial_value (VArr items) = Ok false.
Proof. reflexivity. Qed.

Lemma is_plain_initial_value_error v e :
  is_plain_initial_value v = Err e -> e = TypeError.
Proof.
  destruct v; simpl; try discriminate.
  destruct (obj_get entries "constructor") as [c|]; [|discriminate].
  unfold js_index. destruct (nullish c); simpl; congruence.
Qed.

Arguments is_plain_initial_value : simpl never.

(** Case analysis on the tests a monadic computation in a hypothesis or in
    the goal branches on. *)
Ltac split_bind H :=
  repeat match type of H with
         | context [bind ?c _] =>
             let E := fresh "E" in destruct c eqn:E; simpl in H
         | context [if ?c then _ else _] =>
             let E := fresh "E" in destruct c eqn:E; simpl in H
         | context [match ?c with Some _ => _ | None => _ end] =>
             let E := fresh "E" in destruct c eqn:E; simpl in H
         end.

Section ParserFacts.

Variable findPrimaryKey : option ModelDeclaration -> option (option string).
Variable dictionary : ModelDictionary.
Variable modelName : string.
Variable declaration : ModelDeclaration.
Variable initialValues : option (list (string * value)).

Local Abbreviation step :=
  (reducer findPrimaryKey dictionary modelName declaration initialValues).

(** A step that succeeds leaves the primary key as it was, or makes it
    the current field; it writes the current field only. *)
Lemma reducer_shape acc key d acc' :
  step acc (key, d) = Ok acc' ->
  (exists v, acc' = {| primaryKey := Some key;
                       properties := obj_set (properties acc) key v;
                       relations := relations acc |} /\
             has_isPrimaryKey d = true) \/
  (has_isPrimaryKey d = false /\
   ((exists v, acc' = set_property acc key v) \/
    (exists r, acc' = set_relation acc key r))).
Proof.
  unfold reducer. intros H.
  destruct (has_isPrimaryKey d) eqn:Hpk.
  - left. split_bind H; try discriminate; inversion H; eauto.
  - right. split; [reflexivity|].
    destruct (is_plain_initial_value (initial_value initialValues key))
      as [[|]|]; cbn [bind] in H; [|clear Hpk|discriminate].
    { inversion H. left. eauto. }
    destruct (if truthy (initial_value initialValues key)
              then obj_get declaration key else None) as [rd|].
    + destruct (findPrimaryKey _) as [pk|]; [|discriminate].
      destruct (initial_value initialValues key);
        split_bind H; try discriminate; inversion H; eauto.
    + split_bind H; try discriminate; inversion H; eauto.
Qed.

Lemma reducer_frame acc key d acc' k :
  step acc (key, d) = Ok acc' -> k <> key ->
  obj_get (properties acc') k = obj_get (properties acc) k /\
  obj_get (relations acc') k = obj_get (relations acc) k.
Proof.
  intros H Hk. apply reducer_shape in H.
  destruct H as [(v & -> & _) | (_ & [(v & ->) | (r & ->)])]; simpl;
    split; try reflexivity; apply obj_get_set_neq; congruence.
Qed.

Lemma reduce_frame l acc r k :
  reduce step l acc = Ok r -> ~ In k (keys l) ->
  obj_get (properties r) k = obj_get (properties acc) k /\
  obj_get (relations r) k = obj_get (relations acc) k.
Proof.
  revert acc. induction l as [|[key d] l IH]; intros acc H Hk.
  - inversion H. auto.
  - rewrite reduce_cons in H. simpl in Hk.
    destruct (step acc (key, d)) as [acc'|] eqn:E; [|discriminate].
    change (reduce step l acc' = Ok r) in H.
    assert (Hk' : ~ In k (keys l)) by tauto.
    assert (Hne : k <> key) by (intros ->; tauto).
    destruct (IH _ H Hk') as [Hp Hr].
    destruct (reducer_frame _ _ _ _ k E Hne) as [Hp' Hr'].
    split; congruence.
Qed.

(** The outcome of the parse at one field of a declaration with distinct
    names: the fields before it were reduced to some accumulator, the
    field's own step succeeded, and the later fields did not touch it. *)
Lemma parse_at_field l key d r :
  NoDup (keys l) -> In (key, d) l ->
  reduce step l empty_parse = Ok r ->
  exists acc acc',
    obj_get (properties acc) key = None /\
    obj_get (relations acc) key = None /\
    step acc (key, d) = Ok acc' /\
    obj_get (properties r) key = obj_get (properties acc') key /\
    obj_get (relations r) key = obj_get (relations acc') key.
Proof.
  intros Hnd Hin Hr.
  destruct (split_field _ _ _ Hnd Hin) as (before & after & Heq & Hb & Ha).
  subst l. rewrite reduce_app in Hr.
  destruct (reduce step before empty_parse) as [acc|] eqn:E1; [|discriminate].
  unfold bind in Hr. rewrite reduce_cons in Hr.
  destruct (step acc (key, d)) as [acc'|] eqn:E2; [|discriminate].
  change (reduce step after acc' = Ok r) in Hr.
  exists acc, acc'.
  destruct (reduce_frame _ _ _ key E1 Hb) as [Hp Hrel].
  destruct (reduce_frame _ _ _ key Hr Ha) as [Hp' Hrel'].
  simpl in Hp, Hrel. auto.
Qed.

End ParserFacts.

(** ** Primary-key flags *)

Lemma primaryKeyFields_cons key d l :
  primaryKeyFields ((key, d) :: l) =
  if has_isPrimaryKey d then key :: primaryKeyFields l else primaryKeyFields l.
Proof. unfold primaryKeyFields. simpl. now destruct (has_isPrimaryKey d). Qed.

Lemma primaryKeyFields_app l1 l2 :
  primaryKeyFields (l1 ++ l2) = primaryKeyFields l1 ++ primaryKeyFields l2.
Proof. unfold primaryKeyFields, keys. now rewrite filter_app, map_app. Qed.

Section PrimaryKeyFacts.

Variable findPrimaryKey : option ModelDeclaration -> option (option string).
Variable dictionary : ModelDictionary.
Variable modelName : string.
Variable declaration : ModelDeclaration.
Variable initialValues : option (list (string * value)).

Local Abbreviation step :=
  (reducer findPrimaryKey dictionary modelName declaration initialValues).

Lemma make_ref_error target pk entityRef e :
  make_ref target pk entityRef = Err e -> e = TypeError.
Proof.
  unfold make_ref, js_index. destruct (nullish entityRef); simpl; congruence.
Qed.

Lemma map_make_ref_error target pk items e :
  map_result (make_ref target pk) items = Err e -> e = TypeError.
Proof.
  induction items as [|x items IH]; simpl; [discriminate|].
  destruct (make_ref target pk x) eqn:E; simpl.
  - destruct (map_result (make_ref target pk) items); simpl; [discriminate|].
    intros H. inversion H; subst. now apply IH.
  - intros H. inversion H; subst. eapply make_ref_error; eauto.
Qed.

(** The failures of a field that is not flagged as primary key. *)
Lemma reducer_plain_field_error acc key d e :
  has_isPrimaryKey d = false -> step acc (key, d) = Err e ->
  e = TypeError \/ e = NoPrimaryKey \/ e = RelationWithoutValue modelName key.
Proof.
  intros Hd E. unfold reducer in E. rewrite Hd in E.
  destruct (is_plain_initial_value (initial_value initialValues key))
    as [[|]|e'] eqn:Hplain; cbn [bind] in E;
    [discriminate | | inversion E; subst; left;
                      now apply (is_plain_initial_value_error _ _ Hplain)].
  clear Hplain.
  destruct (if truthy (initial_value initialValues key)
            then obj_get declaration key else None) as [rd|].
  - destruct (findPrimaryKey _) as [pk|]; [|inversion E; auto].
    left.
    destruct (initial_value initialValues key) eqn:Ev;
      try (destruct (kind_is rd OneOf); [|discriminate];
           destruct (make_ref (get_modelName rd) pk _) eqn:Er; simpl in E;
           [discriminate | inversion E; subst; eapply make_ref_error; eauto]).
    destruct (kind_is rd ManyOf); [|discriminate].
    destruct (map_result _ items) eqn:Er; simpl in E; [discriminate|].
    inversion E; subst. eapply map_make_ref_error; eauto.
  - destruct d; simpl in *; try discriminate. inversion E; auto.
Qed.

Lemma reducer_plain_field acc key d :
  has_isPrimaryKey d = false ->
  match step acc (key, d) with
  | Ok acc' => primaryKey acc' = primaryKey acc
  | Err e => forall m, e <> MultiplePrimaryKeys m
  end.
Proof.
  intros Hd. destruct (step acc (key, d)) as [acc'|e] eqn:E.
  - apply reducer_shape in E.
    destruct E as [(v & _ & Hpk) | (_ & [(v & ->) | (r & ->)])];
      [congruence | reflexivity | reflexivity].
  - intros m ->.
    destruct (reducer_plain_field_error _ _ _ _ Hd E) as [H | [H | H]];
      discriminate.
Qed.

Lemma reducer_flagged_field acc key d :
  has_isPrimaryKey d = true ->
  if primaryKey_assigned acc
  then step acc (key, d) = Err (MultiplePrimaryKeys modelName)
  else exists acc', step acc (key, d) = Ok acc' /\ primaryKey acc' = Some key.
Proof.
  intros Hd. unfold reducer. rewrite Hd.
  destruct (primaryKey_assigned acc); simpl; [reflexivity|].
  destruct d; try discriminate. simpl.
  destruct (truthy (initial_value initialValues key)); simpl; eauto.
Qed.

Lemma reduce_plain_fields l : forall acc,
  primaryKeyFields l = [] ->
  match reduce step l acc with
  | Ok r => primaryKey r = primaryKey acc
  | Err e => forall m, e <> MultiplePrimaryKeys m
  end.
Proof.
  induction l as [|[key d] l IH]; intros acc Hl; [reflexivity|].
  rewrite primaryKeyFields_cons in Hl. rewrite reduce_cons.
  destruct (has_isPrimaryKey d) eqn:Hd; [discriminate|].
  pose proof (reducer_plain_field acc key d Hd) as Hs.
  destruct (step acc (key, d)) as [acc'|e]; [|exact Hs].
  change (match reduce step l acc' with
          | Ok r => primaryKey r = primaryKey acc
          | Err e => forall m, e <> MultiplePrimaryKeys m end).
  rewrite <- Hs. now apply IH.
Qed.

Lemma reduce_single_flag l k : forall acc,
  primaryKeyFields l = [k] -> primaryKey_assigned acc = false ->
  match reduce step l acc with
  | Ok r => primaryKey r = Some k
  | Err e => forall m, e <> MultiplePrimaryKeys m
  end.
Proof.
  induction l as [|[key d] l IH]; intros acc Hl Hacc; [discriminate|].
  rewrite primaryKeyFields_cons in Hl. rewrite reduce_cons.
  destruct (has_isPrimaryKey d) eqn:Hd.
  - inversion Hl as [[Hk Hl']]. subst key.
    pose proof (reducer_flagged_field acc k d Hd) as Hs. rewrite Hacc in Hs.
    destruct Hs as (acc' & -> & Hpk).
    change (match reduce step l acc' with
            | Ok r => primaryKey r = Some k
            | Err e => forall m, e <> MultiplePrimaryKeys m end).
    pose proof (reduce_plain_fields l acc' Hl') as Hr.
    destruct (reduce step l acc'); [congruence | exact Hr].
  - pose proof (reducer_plain_field acc key d Hd) as Hs.
    destruct (step acc (key, d)) as [acc'|e]; [|exact Hs].
    apply IH; [exact Hl|]. unfold primaryKey_assigned in *. now rewrite Hs.
Qed.

Lemma reduce_flag_after_key l : forall acc,
  primaryKeyFields l <> [] -> primaryKey_assigned acc = true ->
  exists e, reduce step l acc = Err e.
Proof.
  induction l as [|[key d] l IH]; intros acc Hl Hacc; [contradiction|].
  rewrite primaryKeyFields_cons in Hl. rewrite reduce_cons.
  destruct (has_isPrimaryKey d) eqn:Hd.
  - pose proof (reducer_flagged_field acc key d Hd) as Hs. rewrite Hacc in Hs.
    rewrite Hs. simpl. eauto.
  - pose proof (reducer_plain_field acc key d Hd) as Hs.
    destruct (step acc (key, d)) as [acc'|e]; [|simpl; eauto].
    apply IH; [exact Hl|]. unfold primaryKey_assigned in *. now rewrite Hs.
Qed.

Lemma reduce_several_flags l : forall acc,
  List.length (primaryKeyFields l) > 1 ->
  Forall (fun k => k <> "") (primaryKeyFields l) ->
  primaryKey_assigned acc = false ->
  exists e, reduce step l acc = Err e.
Proof.
  induction l as [|[key d] l IH]; intros acc Hlen Hne Hacc; [simpl in Hlen; lia|].
  rewrite primaryKeyFields_cons in Hlen, Hne. rewrite reduce_cons.
  destruct (has_isPrimaryKey d) eqn:Hd.
  - pose proof (reducer_flagged_field acc key d Hd) as Hs. rewrite Hacc in Hs.
    destruct Hs as (acc' & -> & Hpk).
    apply reduce_flag_after_key.
    + destruct (primaryKeyFields l); [simpl in Hlen; lia | discriminate].
    + unfold primaryKey_assigned, string_truthy. rewrite Hpk.
      inversion Hne as [|? ? Hkey _]; subst.
      destruct (String.eqb key "") eqn:E; [apply String.eqb_eq in E; contradiction | reflexivity].
  - pose proof (reducer_plain_field acc key d Hd) as Hs.
    destruct (step acc (key, d)) as [acc'|e]; [|simpl; eauto].
    apply IH; try assumption. unfold primaryKey_assigned in *. now rewrite Hs.
Qed.

End PrimaryKeyFacts.

(** C1, as the code has it.  The fields are parsed in declaration order and
    the first failure ends the parse.  The parse fails with
    MultiplePrimaryKeys at the second field flagged as primary key, provided
    the fields declared before it were parsed without failure and the name
    of the first flagged field is not the empty string; a schema that flags
    more than one field, all with non-empty names, never yields an entity.
    A schema that flags exactly one field never fails with
    MultiplePrimaryKeys, and every entity parsed from it records that field
    as its primary key. *)
Theorem primary_key_flag_checked
        (findPrimaryKey : option ModelDeclaration -> option (option string))
        (dictionary : ModelDictionary) (modelName : string)
        (declaration : ModelDeclaration)
        (initialValues : option (list (string * value))) :
  let parse :=
    parseModelDeclaration findPrimaryKey dictionary modelName declaration
                          initialValues in
  (forall before k1 k2 getValue after acc,
      declaration = before ++ (k2, PrimaryKeyDecl getValue) :: after ->
      primaryKeyFields before = [k1] -> k1 <> "" ->
      reduce (reducer findPrimaryKey dictionary modelName declaration
                      initialValues) before empty_parse = Ok acc ->
      parse = Err (MultiplePrimaryKeys modelName)) /\
  (List.length (primaryKeyFields declaration) > 1 ->
   Forall (fun k => k <> "") (primaryKeyFields declaration) ->
   exists e, parse = Err e) /\
  (forall k, primaryKeyFields declaration = [k] ->
             (forall m, parse <> Err (MultiplePrimaryKeys m)) /\
             (forall r, parse = Ok r -> primaryKey r = Some k)).
Proof.
  intros parse. subst parse. unfold parseModelDeclaration.
  split; [|split].
  - intros before k1 k2 getValue after acc Hdecl Hflag Hk1 Hbefore.
    pose proof (reduce_single_flag findPrimaryKey dictionary modelName
                  declaration initialValues before k1 empty_parse Hflag
                  eq_refl) as Hpk.
    rewrite Hbefore in Hpk.
    rewrite Hdecl at 2. rewrite reduce_app, Hbefore. unfold bind.
    rewrite reduce_cons.
    pose proof (reducer_flagged_field findPrimaryKey dictionary modelName
                  declaration initialValues acc k2 (PrimaryKeyDecl getValue)
                  eq_refl) as Hstep.
    assert (Hassigned : primaryKey_assigned acc = true).
    { unfold primaryKey_assigned, string_truthy. rewrite Hpk.
      destruct (String.eqb k1 "") eqn:E; [apply String.eqb_eq in E; contradiction | reflexivity]. }
    rewrite Hassigned in Hstep. now rewrite Hstep.
  - intros Hlen Hnames. now apply reduce_several_flags.
  - intros k Hflag.
    pose proof (reduce_single_flag findPrimaryKey dictionary modelName
                  declaration initialValues declaration k empty_parse Hflag
                  eq_refl) as Hpk.
    destruct (reduce _ declaration empty_parse) as [r|e]; split.
    + discriminate.
    + intros r' Hr. inversion Hr; subst. exact Hpk.
    + intros m Hm. inversion Hm; subst. now apply (Hpk m).
    + discriminate.
Qed.

Lemma primary_key_flag_checked_witness :
  parseModelDeclaration Examples.findPrimaryKey_spec Examples.dictionary
                        "user" Examples.twoKeys None
  = Err (MultiplePrimaryKeys "user") /\
  (exists e,
      parseModelDeclaration Examples.findPrimaryKey_spec Examples.dictionary
                            "user" Examples.twoKeys None = Err e) /\
  (exists r,
      parseModelDeclaration Examples.findPrimaryKey_spec Examples.dictionary
                            "user" Examples.userDeclaration None = Ok r /\
      primaryKey r = Some "id").
Proof.
  split; [|split].
  - destruct (primary_key_flag_checked Examples.findPrimaryKey_spec
                Examples.dictionary "user" Examples.twoKeys None)
      as (Hsecond & _ & _).
    eapply (Hsecond [("id", PrimaryKeyDecl (VStr "generated-id"))] "id" "slug"
                    (VStr "generated-slug") []).
    + reflexivity.
    + reflexivity.
    + discriminate.
    + reflexivity.
  - destruct (primary_key_flag_checked Examples.findPrimaryKey_spec
                Examples.dictionary "user" Examples.twoKeys None)
      as (_ & Hnever & _).
    apply Hnever.
    + simpl. lia.
    + repeat constructor; discriminate.
  - destruct (primary_key_flag_checked Examples.findPrimaryKey_spec
                Examples.dictionary "user" Examples.userDeclaration None)
      as (_ & _ & Hone).
    eexists. split; [reflexivity|].
    apply (Hone "id"); reflexivity.
Defined.

(** C1 as stated fails: a schema with two flagged fields whose parse fails
    with RelationWithoutValue, at a relation declared before them; and a
    schema with exactly one flagged field from which no entity, hence no
    primary key, is recorded. *)
Lemma primary_key_flag_counterexample :
  (List.length (primaryKeyFields Examples.relationThenTwoKeys) > 1 /\
   parseModelDeclaration Examples.findPrimaryKey_spec Examples.dictionary
                         "post" Examples.relationThenTwoKeys None
   = Err (RelationWithoutValue "post" "author")) /\
  (primaryKeyFields Examples.postDeclaration = ["id"] /\
   parseModelDeclaration Examples.findPrimaryKey_spec Examples.dictionary
                         "post" Examples.postDeclaration None
   = Err (RelationWithoutValue "post" "author")).
Proof.
  repeat split. simpl. lia.
Qed.

(** ** Relations without a value *)

Section RelationFacts.

Variable findPrimaryKey : option ModelDeclaration -> option (option string).
Variable dictionary : ModelDictionary.
Variable modelName : string.
Variable declaration : ModelDeclaration.
Variable initialValues : option (list (string * value)).

Local Abbreviation step :=
  (reducer findPrimaryKey dictionary modelName declaration initialValues).
Local Abbreviation exactValue := (initial_value initialValues).

Lemma nullish_not_plain v : nullish v = true -> is_plain_value v = false.
Proof. destruct v; simpl; congruence. Qed.

Lemma nullish_not_truthy v : nullish v = true -> truthy v = false.
Proof. destruct v; simpl; congruence. Qed.

Lemma reducer_relation_missing acc key kind target unique :
  nullish (exactValue key) = true ->
  step acc (key, RelationDecl kind target unique)
  = Err (RelationWithoutValue modelName key).
Proof.
  intros Hv. unfold reducer. simpl has_isPrimaryKey. cbv iota.
  rewrite (nullish_is_not_plain _ Hv). cbn [bind].
  rewrite (nullish_not_truthy _ Hv).
  reflexivity.
Qed.

(** Whatever a relation field stores as a property is the value that was
    supplied for it. *)
Lemma reducer_relation_property acc key kind target unique acc' :
  step acc (key, RelationDecl kind target unique) = Ok acc' ->
  properties acc' = properties acc \/
  properties acc' = obj_set (properties acc) key (exactValue key).
Proof.
  unfold reducer. simpl has_isPrimaryKey. cbv iota. intros H.
  destruct (is_plain_initial_value (exactValue key)) as [[|]|];
    cbn [bind] in H; [| |discriminate].
  { inversion H. right. reflexivity. }
  destruct (if truthy (exactValue key) then obj_get declaration key else None)
    as [rd|]; [|discriminate].
  destruct (findPrimaryKey _) as [pk|]; [|discriminate].
  destruct (exactValue key);
    split_bind H; try discriminate; inversion H; simpl; auto.
Qed.

End RelationFacts.

(** C3, as the code has it.  A relation-declared field for which no value
    is supplied (the initial values are absent, or hold nothing, undefined
    or null at that name) makes its own parsing step fail with
    RelationWithoutValue; the parse as a whole then yields no entity, and
    it fails with RelationWithoutValue whenever the fields declared before
    that one were parsed without failure.  Relation fields are never filled
    from a default: whatever an entity stores as a property under a
    relation field is the value that was supplied for it. *)
Theorem relation_requires_value
        (findPrimaryKey : option ModelDeclaration -> option (option string))
        (dictionary : ModelDictionary) (modelName : string)
        (declaration : ModelDeclaration)
        (initialValues : option (list (string * value))) :
  let parse :=
    parseModelDeclaration findPrimaryKey dictionary modelName declaration
                          initialValues in
  let step :=
    reducer findPrimaryKey dictionary modelName declaration initialValues in
  (forall key kind target unique,
      In (key, RelationDecl kind target unique) declaration ->
      nullish (initial_value initialValues key) = true ->
      (forall acc, step acc (key, RelationDecl kind target unique)
                   = Err (RelationWithoutValue modelName key)) /\
      (forall before after acc,
          declaration = before ++ (key, RelationDecl kind target unique) :: after ->
          reduce step before empty_parse = Ok acc ->
          parse = Err (RelationWithoutValue modelName key)) /\
      (exists e, parse = Err e)) /\
  (forall key kind target unique r v,
      NoDup (keys declaration) ->
      In (key, RelationDecl kind target unique) declaration ->
      parse = Ok r ->
      obj_get (properties r) key = Some v ->
      v = initial_value initialValues key).
Proof.
  intros parse step. subst parse step. unfold parseModelDeclaration.
  split.
  - intros key kind target unique Hin Hv.
    assert (Hstep : forall acc,
               reducer findPrimaryKey dictionary modelName declaration
                       initialValues acc (key, RelationDecl kind target unique)
               = Err (RelationWithoutValue modelName key))
      by (intros acc; now apply reducer_relation_missing).
    assert (Hsplit : forall before after acc,
               declaration = before ++ (key, RelationDecl kind target unique) :: after ->
               reduce (reducer findPrimaryKey dictionary modelName declaration
                               initialValues) before empty_parse = Ok acc ->
               reduce (reducer findPrimaryKey dictionary modelName declaration
                               initialValues) declaration empty_parse
               = Err (RelationWithoutValue modelName key)).
    { intros before after acc Hdecl Hbefore.
      rewrite Hdecl at 2. rewrite reduce_app, Hbefore. unfold bind.
      rewrite reduce_cons, Hstep. reflexivity. }
    split; [exact Hstep | split; [exact Hsplit|]].
    destruct (in_split _ _ Hin) as (before & after & Hdecl).
    destruct (reduce (reducer findPrimaryKey dictionary modelName declaration
                              initialValues) before empty_parse)
      as [acc|e] eqn:Hbefore.
    + exists (RelationWithoutValue modelName key). eapply Hsplit; eauto.
    + exists e. rewrite Hdecl at 2. rewrite reduce_app, Hbefore. reflexivity.
  - intros key kind target unique r v Hnd Hin Hr Hv.
    destruct (parse_at_field _ _ _ _ _ _ _ _ _ Hnd Hin Hr)
      as (acc & acc' & Hp & _ & Hstep & Hp' & _).
    rewrite Hp' in Hv.
    destruct (reducer_relation_property _ _ _ _ _ _ _ _ _ _ _ Hstep) as [E | E];
      rewrite E in Hv.
    + congruence.
    + rewrite obj_get_set_eq in Hv. congruence.
Qed.

Lemma relation_requires_value_witness :
  parseModelDeclaration Examples.findPrimaryKey_spec Examples.dictionary
                        "post" Examples.postDeclaration None
  = Err (RelationWithoutValue "post" "author") /\
  (exists r v,
      parseModelDeclaration Examples.findPrimaryKey_spec Examples.dictionary
                            "post" Examples.postDeclaration
                            (Some [("author", VStr "nobody");
                                   ("likes", VArr [])]) = Ok r /\
      obj_get (properties r) "author" = Some v /\ v = VStr "nobody").
Proof.
  split.
  - destruct (relation_requires_value Examples.findPrimaryKey_spec
                Examples.dictionary "post" Examples.postDeclaration None)
      as (Hmissing & _).
    destruct (Hmissing "author" OneOf "user" false) as (_ & Hparse & _).
    + simpl. tauto.
    + reflexivity.
    + eapply (Hparse [("id", PrimaryKeyDecl (VStr "post-generated"));
                      ("title", ValueGetter (VStr "Untitled"))]
                     [("likes", RelationDecl ManyOf "user" false)]);
        reflexivity.
  - destruct (relation_requires_value Examples.findPrimaryKey_spec
                Examples.dictionary "post" Examples.postDeclaration
                (Some [("author", VStr "nobody"); ("likes", VArr [])]))
      as (_ & Hsupplied).
    eexists. eexists. split; [reflexivity|]. split; [reflexivity|].
    eapply (Hsupplied "author" OneOf "user" false).
    + repeat constructor; simpl; intuition discriminate.
    + simpl. tauto.
    + reflexivity.
    + reflexivity.
Defined.

(** C3 as stated fails: the relation field has no value, yet the parse
    fails with MultiplePrimaryKeys, raised at a field declared before it. *)
Lemma relation_requires_value_counterexample :
  In ("author", RelationDecl OneOf "user" false) Examples.twoKeysThenRelation /\
  initial_value None "author" = VUndefined /\
  parseModelDeclaration Examples.findPrimaryKey_spec Examples.dictionary
                        "post" Examples.twoKeysThenRelation None
  = Err (MultiplePrimaryKeys "post").
Proof.
  repeat split. simpl. tauto.
Qed.

(** ** Values supplied for a field *)

Section SuppliedValueFacts.

Variable findPrimaryKey : option ModelDeclaration -> option (option string).
Variable dictionary : ModelDictionary.
Variable modelName : string.
Variable declaration : ModelDeclaration.
Variable initialValues : option (list (string * value)).

Local Abbreviation step :=
  (reducer findPrimaryKey dictionary modelName declaration initialValues).
Local Abbreviation exactValue := (initial_value initialValues).

(** What the primary-key field stores. *)
Lemma reducer_primary_key acc key getValue :
  primaryKey_assigned acc = false ->
  step acc (key, PrimaryKeyDecl getValue)
  = Ok {| primaryKey := Some key;
          properties :=
            obj_set (properties acc) key
                    (if truthy (exactValue key) then exactValue key
                     else getValue);
          relations := relations acc |}.
Proof.
  intros Hacc. unfold reducer. simpl has_isPrimaryKey. cbv iota.
  rewrite Hacc. simpl. now destruct (truthy (exactValue key)).
Qed.

Lemma reducer_plain_value acc key d :
  has_isPrimaryKey d = false -> is_plain_value (exactValue key) = true ->
  step acc (key, d) = Ok (set_property acc key (exactValue key)).
Proof.
  intros Hd Hv. unfold reducer.
  now rewrite Hd, (plain_value_is_plain _ Hv).
Qed.

Lemma map_make_ref target pk items :
  Forall (fun item => nullish item = false) items ->
  map_result (make_ref target (Some pk)) items
  = Ok (map (fun item => {| __type := target;
                            __primaryKey := Some pk;
                            __nodeId := own_property item pk |}) items).
Proof.
  induction 1 as [|item items Hitem _ IH]; simpl; [reflexivity|].
  unfold make_ref at 1, js_index. rewrite Hitem. simpl. now rewrite IH.
Qed.

Lemma reducer_many_of acc key target unique items pk :
  obj_get declaration key = Some (RelationDecl ManyOf target unique) ->
  exactValue key = VArr items ->
  Forall (fun item => nullish item = false) items ->
  findPrimaryKey (obj_get dictionary target) = Some (Some pk) ->
  step acc (key, RelationDecl ManyOf target unique)
  = Ok (set_relation acc key
          (mkRelation ManyOf (Some target) (Some unique)
             (map (fun item => {| __type := Some target;
                                  __primaryKey := Some pk;
                                  __nodeId := own_property item pk |})
                  items))).
Proof.
  intros Hdecl Hv Hitems Hpk. unfold reducer.
  simpl has_isPrimaryKey. cbv iota. rewrite Hv, array_is_not_plain.
  cbn [bind]. simpl truthy. cbv iota. rewrite Hdecl. simpl get_modelName.
  simpl property_key. rewrite Hpk. simpl kind_is. cbv iota.
  rewrite (map_make_ref _ _ _ Hitems). reflexivity.
Qed.

Lemma not_plain_supplied_truthy v :
  is_plain_initial_value v = Ok false -> nullish v = false ->
  truthy v = true.
Proof.
  destruct v; unfold is_plain_initial_value; simpl; congruence.
Qed.

Lemma reducer_shape_mismatch acc key kind target unique :
  obj_get declaration key = Some (RelationDecl kind target unique) ->
  nullish (exactValue key) = false ->
  is_plain_initial_value (exactValue key) <> Err TypeError ->
  (kind = ManyOf /\ isArray (exactValue key) = false) \/
  (kind = OneOf /\ isArray (exactValue key) = true) ->
  findPrimaryKey (obj_get dictionary target) <> None ->
  step acc (key, RelationDecl kind target unique)
  = Ok (set_property acc key (exactValue key)).
Proof.
  intros Hdecl Hsupplied Htest Hshape Hpk. unfold reducer.
  simpl has_isPrimaryKey. cbv iota.
  destruct (is_plain_initial_value (exactValue key)) as [[|]|e] eqn:Hplain;
    cbn [bind]; [reflexivity | |].
  2:{ rewrite (is_plain_initial_value_error _ _ Hplain) in Htest.
      contradiction. }
  rewrite (not_plain_supplied_truthy _ Hplain Hsupplied).
  rewrite Hdecl. simpl get_modelName. simpl property_key.
  destruct (findPrimaryKey (obj_get dictionary target)) as [pk|];
    [|contradiction].
  destruct Hshape as [[-> Harr] | [-> Harr]];
    destruct (exactValue key); simpl in *; congruence.
Qed.

End SuppliedValueFacts.

(** C4, evaluated on the code.  When 0, false or the empty string is
    supplied for the primary key, the parse does not store the supplied
    value: it stores the default generated by the value descriptor, exactly
    as if nothing had been supplied. *)
Theorem primary_key_falsy_value_discarded :
  let parse v :=
    parseModelDeclaration Examples.findPrimaryKey_spec Examples.dictionary
                          "user" Examples.userDeclaration
                          (Some [("id", v)]) in
  let generated :=
    Ok {| primaryKey := Some "id";
          properties := [("id", VStr "user-generated");
                         ("firstName", VStr "John")];
          relations := [] |} in
  parse (VNum (Num 0)) = generated /\
  parse (VBool false) = generated /\
  parse (VStr "") = generated.
Proof.
  repeat split.
Qed.

(** C5.  A field that is not the primary key and for which a string, a
    number, a boolean or a Date is supplied stores that value verbatim
    among the properties; no relation is recorded for it and the
    primary-key resolver is not consulted, also when the field is declared
    as a relation. *)
Theorem plain_value_stored_verbatim
        (findPrimaryKey : option ModelDeclaration -> option (option string))
        (dictionary : ModelDictionary) (modelName : string)
        (declaration : ModelDeclaration)
        (initialValues : option (list (string * value)))
        (key : string) (d : descriptor) :
  NoDup (keys declaration) ->
  In (key, d) declaration ->
  has_isPrimaryKey d = false ->
  is_plain_value (initial_value initialValues key) = true ->
  (forall acc,
      reducer findPrimaryKey dictionary modelName declaration initialValues
              acc (key, d)
      = Ok {| primaryKey := primaryKey acc;
              properties := obj_set (properties acc) key
                                    (initial_value initialValues key);
              relations := relations acc |}) /\
  (forall r,
      parseModelDeclaration findPrimaryKey dictionary modelName declaration
                            initialValues = Ok r ->
      obj_get (properties r) key = Some (initial_value initialValues key) /\
      obj_get (relations r) key = None).
Proof.
  intros Hnd Hin Hd Hv. split.
  - intros acc. now apply reducer_plain_value.
  - intros r Hr.
    destruct (parse_at_field _ _ _ _ _ _ _ _ _ Hnd Hin Hr)
      as (acc & acc' & _ & Hrel & Hstep & Hp' & Hrel').
    rewrite (reducer_plain_value _ _ _ _ _ acc key d Hd Hv) in Hstep.
    inversion Hstep; subst acc'. simpl in *.
    rewrite Hp', Hrel', obj_get_set_eq. auto.
Qed.

Lemma plain_value_stored_verbatim_witness :
  exists r,
    parseModelDeclaration (fun _ => None) Examples.dictionary "post"
                          Examples.postDeclaration
                          (Some [("author", VStr "user-1");
                                 ("likes", VNum (Num 0))]) = Ok r /\
    obj_get (properties r) "author" = Some (VStr "user-1") /\
    obj_get (relations r) "author" = None.
Proof.
  eexists. split; [reflexivity|].
  eapply (plain_value_stored_verbatim (fun _ => None) Examples.dictionary "post"
            Examples.postDeclaration
            (Some [("author", VStr "user-1"); ("likes", VNum (Num 0))])
            "author" (RelationDecl OneOf "user" false)).
  - repeat constructor; simpl; intuition discriminate.
  - simpl. tauto.
  - reflexivity.
  - reflexivity.
  - reflexivity.
Defined.

(** C6.  A ManyOf relation field supplied with an array of entities records
    a ManyOf relation whose refs hold one reference marker per element of
    the array, in the order of the array; each marker carries the name of
    the target model, the primary-key field the resolver finds for the
    target model, and the element's own value at that field.  Nothing is
    stored for the field among the properties. *)
Theorem many_of_reference_markers
        (findPrimaryKey : option ModelDeclaration -> option (option string))
        (dictionary : ModelDictionary) (modelName : string)
        (declaration : ModelDeclaration)
        (initialValues : option (list (string * value)))
        (key target : string) (unique : bool) (items : list value)
        (targetPrimaryKey : string) :
  NoDup (keys declaration) ->
  In (key, RelationDecl ManyOf target unique) declaration ->
  initial_value initialValues key = VArr items ->
  Forall (fun item => nullish item = false) items ->
  findPrimaryKey (obj_get dictionary target) = Some (Some targetPrimaryKey) ->
  let marker item :=
    {| __type := Some target;
       __primaryKey := Some targetPrimaryKey;
       __nodeId := own_property item targetPrimaryKey |} in
  let relation :=
    mkRelation ManyOf (Some target) (Some unique) (map marker items) in
  (forall acc,
      reducer findPrimaryKey dictionary modelName declaration initialValues
              acc (key, RelationDecl ManyOf target unique)
      = Ok {| primaryKey := primaryKey acc;
              properties := properties acc;
              relations := obj_set (relations acc) key relation |}) /\
  (forall r,
      parseModelDeclaration findPrimaryKey dictionary modelName declaration
                            initialValues = Ok r ->
      obj_get (relations r) key = Some relation /\
      obj_get (properties r) key = None).
Proof.
  intros Hnd Hin Hv Hitems Hpk marker relation.
  assert (Hstep : forall acc,
             reducer findPrimaryKey dictionary modelName declaration
                     initialValues acc (key, RelationDecl ManyOf target unique)
             = Ok (set_relation acc key relation)).
  { intros acc. apply reducer_many_of; try assumption.
    now apply obj_get_in. }
  split; [exact Hstep|].
  intros r Hr.
  destruct (parse_at_field _ _ _ _ _ _ _ _ _ Hnd Hin Hr)
    as (acc & acc' & Hp & _ & Hacc' & Hp' & Hrel').
  rewrite Hstep in Hacc'. inversion Hacc'; subst acc'. simpl in *.
  rewrite Hp', Hrel', obj_get_set_eq. auto.
Qed.

Lemma many_of_reference_markers_witness :
  exists r,
    parseModelDeclaration Examples.findPrimaryKey_spec Examples.dictionary
                          "post" Examples.postDeclaration
                          (Some [("author", Examples.alice);
                                 ("likes", VArr [Examples.bob; Examples.alice])])
    = Ok r /\
    obj_get (relations r) "likes"
    = Some (mkRelation ManyOf (Some "user") (Some false)
              [ {| __type := Some "user"; __primaryKey := Some "id";
                   __nodeId := VStr "user-2" |};
                {| __type := Some "user"; __primaryKey := Some "id";
                   __nodeId := VStr "user-1" |} ]) /\
    obj_get (properties r) "likes" = None.
Proof.
  eexists. split; [reflexivity|].
  eapply (many_of_reference_markers Examples.findPrimaryKey_spec
            Examples.dictionary "post" Examples.postDeclaration
            (Some [("author", Examples.alice);
                   ("likes", VArr [Examples.bob; Examples.alice])])
            "likes" "user" false [Examples.bob; Examples.alice] "id").
  - repeat constructor; simpl; intuition discriminate.
  - simpl. tauto.
  - reflexivity.
  - repeat constructor.
  - reflexivity.
  - reflexivity.
Defined.

(** C7, evaluated on the code.  A ManyOf relation field supplied with an
    object that is not an array, here the object whose own constructor
    property is null, is not stored as a property: the test for plain
    values reads the name of its constructor, and the parse fails with a
    TypeError.  With an entity in place of that object the value is stored
    unchanged among the properties, as the fallback of the parser has
    it. *)
Theorem relation_shape_mismatch_throws :
  let parse likes :=
    parseModelDeclaration Examples.findPrimaryKey_spec Examples.dictionary
                          "post" Examples.postDeclaration
                          (Some [("author", Examples.alice);
                                 ("likes", likes)]) in
  isArray (VObj [("constructor", VNull)]) = false /\
  parse (VObj [("constructor", VNull)]) = Err TypeError /\
  exists r,
    parse Examples.bob = Ok r /\
    obj_get (properties r) "likes" = Some Examples.bob /\
    obj_get (relations r) "likes" = None.
Proof.
  intros parse. split; [reflexivity|]. split; [reflexivity|].
  eexists. split; [reflexivity|]. split; reflexivity.
Qed.

(** X20.  A relation field whose supplied value has the wrong shape for its
    kind (ManyOf with a value that is not an array, OneOf with an array) is
    stored unchanged among the properties, no relation is recorded and the
    step does not fail, provided the value is neither undefined nor null,
    the test for plain values does not throw on it, and the primary-key
    resolver, which the code consults for the target model before it looks
    at the shape, does not fail. *)
Theorem relation_shape_mismatch_stored
        (findPrimaryKey : option ModelDeclaration -> option (option string))
        (dictionary : ModelDictionary) (modelName : string)
        (declaration : ModelDeclaration)
        (initialValues : option (list (string * value)))
        (key target : string) (kind : RelationKind) (unique : bool) :
  NoDup (keys declaration) ->
  In (key, RelationDecl kind target unique) declaration ->
  nullish (initial_value initialValues key) = false ->
  is_plain_initial_value (initial_value initialValues key) <> Err TypeError ->
  (kind = ManyOf /\ isArray (initial_value initialValues key) = false) \/
  (kind = OneOf /\ isArray (initial_value initialValues key) = true) ->
  findPrimaryKey (obj_get dictionary target) <> None ->
  (forall acc,
      reducer findPrimaryKey dictionary modelName declaration initialValues
              acc (key, RelationDecl kind target unique)
      = Ok {| primaryKey := primaryKey acc;
              properties := obj_set (properties acc) key
                                    (initial_value initialValues key);
              relations := relations acc |}) /\
  (forall r,
      parseModelDeclaration findPrimaryKey dictionary modelName declaration
                            initialValues = Ok r ->
      obj_get (properties r) key = Some (initial_value initialValues key) /\
      obj_get (relations r) key = None).
Proof.
  intros Hnd Hin Hsupplied Htest Hshape Hpk.
  assert (Hstep : forall acc,
             reducer findPrimaryKey dictionary modelName declaration
                     initialValues acc (key, RelationDecl kind target unique)
             = Ok (set_property acc key (initial_value initialValues key))).
  { intros acc. apply reducer_shape_mismatch; try assumption.
    now apply obj_get_in. }
  split; [exact Hstep|].
  intros r Hr.
  destruct (parse_at_field _ _ _ _ _ _ _ _ _ Hnd Hin Hr)
    as (acc & acc' & _ & Hrel & Hacc' & Hp' & Hrel').
  rewrite Hstep in Hacc'. inversion Hacc'; subst acc'. simpl in *.
  rewrite Hp', Hrel', obj_get_set_eq. auto.
Qed.

Lemma relation_shape_mismatch_stored_witness :
  exists r,
    parseModelDeclaration Examples.findPrimaryKey_spec Examples.dictionary
                          "post" Examples.postDeclaration
                          (Some [("author", VArr [Examples.alice]);
                                 ("likes", Examples.bob)])
    = Ok r /\
    (obj_get (properties r) "author" = Some (VArr [Examples.alice]) /\
     obj_get (relations r) "author" = None) /\
    (obj_get (properties r) "likes" = Some Examples.bob /\
     obj_get (relations r) "likes" = None).
Proof.
  eexists. split; [reflexivity|]. split.
  - eapply (relation_shape_mismatch_stored Examples.findPrimaryKey_spec
              Examples.dictionary "post" Examples.postDeclaration
              (Some [("author", VArr [Examples.alice]);
                     ("likes", Examples.bob)])
              "author" "user" OneOf false).
    + repeat constructor; simpl; intuition discriminate.
    + simpl. tauto.
    + reflexivity.
    + discriminate.
    + right. split; reflexivity.
    + discriminate.
    + reflexivity.
  - eapply (relation_shape_mismatch_stored Examples.findPrimaryKey_spec
              Examples.dictionary "post" Examples.postDeclaration
              (Some [("author", VArr [Examples.alice]);
                     ("likes", Examples.bob)])
              "likes" "user" ManyOf false).
    + repeat constructor; simpl; intuition discriminate.
    + simpl. tauto.
    + reflexivity.
    + discriminate.
    + left. split; reflexivity.
    + discriminate.
    + reflexivity.
Defined.

(** X21.  The test for plain values, on the value supplied for a field
    that is not the primary key.  It holds exactly of strings, numbers,
    booleans, dates and objects whose own constructor property has the name
    Date, and the field then stores the value as a property, whatever the
    schema declares for it.  It throws exactly on objects whose own
    constructor property is null or undefined, and the step for the field
    then fails with a TypeError. *)
Theorem plain_test_outcomes
        (findPrimaryKey : option ModelDeclaration -> option (option string))
        (dictionary : ModelDictionary) (modelName : string)
        (declaration : ModelDeclaration)
        (initialValues : option (list (string * value)))
        (acc : ParsedModelDeclaration) (key : string) (d : descriptor) :
  has_isPrimaryKey d = false ->
  let v := initial_value initialValues key in
  let step :=
    reducer findPrimaryKey dictionary modelName declaration initialValues
            acc (key, d) in
  (is_plain_initial_value v = Ok true <->
   is_plain_value v = true \/
   exists entries constructor,
     v = VObj entries /\
     obj_get entries "constructor" = Some constructor /\
     nullish constructor = false /\
     own_property constructor "name" = VStr "Date") /\
  (is_plain_initial_value v = Err TypeError <->
   exists entries constructor,
     v = VObj entries /\
     obj_get entries "constructor" = Some constructor /\
     nullish constructor = true) /\
  (is_plain_initial_value v = Ok true ->
   step = Ok {| primaryKey := primaryKey acc;
                properties := obj_set (properties acc) key v;
                relations := relations acc |}) /\
  (is_plain_initial_value v = Err TypeError -> step = Err TypeError).
Proof.
  intros Hd v step. subst step.
  assert (Htrue : forall w,
             is_plain_initial_value w = Ok true <->
             is_plain_value w = true \/
             exists entries constructor,
               w = VObj entries /\
               obj_get entries "constructor" = Some constructor /\
               nullish constructor = false /\
               own_property constructor "name" = VStr "Date").
  { intros w. unfold is_plain_initial_value, constructor_name. split.
    - destruct w; simpl; try discriminate; auto.
      destruct (obj_get entries "constructor") as [c|] eqn:Hc;
        [|simpl; discriminate].
      unfold js_index. destruct (nullish c) eqn:Hn; simpl; [discriminate|].
      intros H. right. exists entries, c.
      split; [reflexivity|]. split; [exact Hc|]. split; [exact Hn|].
      destruct (own_property c "name"); simpl in H; try discriminate.
      destruct (String.eqb s "Date") eqn:E; [|discriminate].
      apply String.eqb_eq in E. now subst.
    - intros [H | (entries & c & -> & Hc & Hn & Hname)].
      + destruct w; simpl in *; try discriminate; reflexivity.
      + rewrite Hc. unfold js_index. rewrite Hn. simpl property_key.
        rewrite Hname. reflexivity. }
  assert (Hthrows : forall w,
             is_plain_initial_value w = Err TypeError <->
             exists entries constructor,
               w = VObj entries /\
               obj_get entries "constructor" = Some constructor /\
               nullish constructor = true).
  { intros w. unfold is_plain_initial_value, constructor_name. split.
    - destruct w; simpl; try discriminate.
      destruct (obj_get entries "constructor") as [c|] eqn:Hc;
        [|simpl; discriminate].
      unfold js_index. destruct (nullish c) eqn:Hn; simpl; [|discriminate].
      intros _. exists entries, c. auto.
    - intros (entries & c & -> & Hc & Hn).
      rewrite Hc. unfold js_index. rewrite Hn. reflexivity. }
  split; [apply Htrue | split; [apply Hthrows | split]];
    intros H; unfold reducer; rewrite Hd; fold v; rewrite H; reflexivity.
Qed.

Lemma plain_test_outcomes_witness :
  let step likes :=
    reducer Examples.findPrimaryKey_spec Examples.dictionary "post"
            Examples.postDeclaration (Some [("likes", likes)])
            empty_parse ("likes", RelationDecl ManyOf "user" false) in
  step (VObj [("constructor", VObj [("name", VStr "Date")])])
  = Ok {| primaryKey := None;
          properties :=
            [("likes", VObj [("constructor", VObj [("name", VStr "Date")])])];
          relations := [] |} /\
  step (VObj [("constructor", VNull)]) = Err TypeError.
Proof.
  intros step. subst step. split.
  - apply (plain_test_outcomes Examples.findPrimaryKey_spec
             Examples.dictionary "post" Examples.postDeclaration
             (Some [("likes",
                     VObj [("constructor", VObj [("name", VStr "Date")])])])
             empty_parse "likes" (RelationDecl ManyOf "user" false)
             eq_refl).
    reflexivity.
  - apply (plain_test_outcomes Examples.findPrimaryKey_spec
             Examples.dictionary "post" Examples.postDeclaration
             (Some [("likes", VObj [("constructor", VNull)])])
             empty_parse "likes" (RelationDecl ManyOf "user" false)
             eq_refl).
    reflexivity.
Defined.

(** ** Response codes *)

Import RemoveInternalProperties GenerateRestHandlers.

Lemma enum_eqb_eq a b : enum_eqb a b = true <-> a = b.
Proof.
  destruct a as [x|x], b as [y|y]; simpl; split; intros H;
    try discriminate; try (inversion H; subst).
  - apply Z.eqb_eq in H. now subst.
  - apply Z.eqb_refl.
  - apply String.eqb_eq in H. now subst.
  - apply String.eqb_refl.
Qed.

Lemma type_is_true t member : type_is t member = true <-> t = Some member.
Proof.
  destruct t as [a|]; simpl.
  - rewrite enum_eqb_eq. split; congruence.
  - split; discriminate.
Qed.

Lemma type_is_false t member : t <> Some member -> type_is t member = false.
Proof.
  intros H. destruct (type_is t member) eqn:E; [|reflexivity].
  apply type_is_true in E. contradiction.
Qed.

(** C2.  A failure is answered with the status of its type: 404 for
    EntityNotFound, 409 for DuplicatePrimaryKey, 400 for BadRequest and 500
    for everything else, a failure without a type included.  The members of
    OperationErrorType are only known to be distinct from one another and
    from HTTPErrorType.BadRequest. *)
Theorem response_status_by_error_type
        (EntityNotFound DuplicatePrimaryKey : enum_value) :
  EntityNotFound <> DuplicatePrimaryKey ->
  HTTPErrorType_BadRequest <> EntityNotFound ->
  HTTPErrorType_BadRequest <> DuplicatePrimaryKey ->
  let status error :=
    getResponseStatusByErrorType EntityNotFound DuplicatePrimaryKey error in
  forall error,
    (type error = Some EntityNotFound -> status error = 404%Z) /\
    (type error = Some DuplicatePrimaryKey -> status error = 409%Z) /\
    (type error = Some HTTPErrorType_BadRequest -> status error = 400%Z) /\
    (type error <> Some EntityNotFound ->
     type error <> Some DuplicatePrimaryKey ->
     type error <> Some HTTPErrorType_BadRequest ->
     status error = 500%Z).
Proof.
  intros Hdistinct Hbad1 Hbad2 status error. subst status.
  unfold getResponseStatusByErrorType.
  repeat split.
  - intros ->. simpl. now rewrite (proj2 (enum_eqb_eq _ _) eq_refl).
  - intros ->.
    rewrite (type_is_false (Some DuplicatePrimaryKey) EntityNotFound)
      by congruence.
    now rewrite (proj2 (type_is_true _ _) eq_refl).
  - intros ->.
    rewrite (type_is_false (Some HTTPErrorType_BadRequest) EntityNotFound)
      by congruence.
    rewrite (type_is_false (Some HTTPErrorType_BadRequest) DuplicatePrimaryKey)
      by congruence.
    now rewrite (proj2 (type_is_true _ _) eq_refl).
  - intros H1 H2 H3. now rewrite !type_is_false.
Qed.

Lemma response_status_by_error_type_witness :
  let status t :=
    getResponseStatusByErrorType (EnumStr "EntityNotFound")
                                 (EnumStr "DuplicatePrimaryKey")
                                 {| type := t; message := "failed" |} in
  status (Some (EnumStr "EntityNotFound")) = 404%Z /\
  status (Some (EnumStr "DuplicatePrimaryKey")) = 409%Z /\
  status (Some HTTPErrorType_BadRequest) = 400%Z /\
  status (Some (EnumStr "MissingPrimaryKey")) = 500%Z /\
  status None = 500%Z.
Proof.
  intros status.
  assert (H : forall error,
             (type error = Some (EnumStr "EntityNotFound") ->
              getResponseStatusByErrorType (EnumStr "EntityNotFound")
                (EnumStr "DuplicatePrimaryKey") error = 404%Z) /\
             (type error = Some (EnumStr "DuplicatePrimaryKey") ->
              getResponseStatusByErrorType (EnumStr "EntityNotFound")
                (EnumStr "DuplicatePrimaryKey") error = 409%Z) /\
             (type error = Some HTTPErrorType_BadRequest ->
              getResponseStatusByErrorType (EnumStr "EntityNotFound")
                (EnumStr "DuplicatePrimaryKey") error = 400%Z) /\
             (type error <> Some (EnumStr "EntityNotFound") ->
              type error <> Some (EnumStr "DuplicatePrimaryKey") ->
              type error <> Some HTTPErrorType_BadRequest ->
              getResponseStatusByErrorType (EnumStr "EntityNotFound")
                (EnumStr "DuplicatePrimaryKey") error = 500%Z)).
  { apply (response_status_by_error_type (EnumStr "EntityNotFound")
             (EnumStr "DuplicatePrimaryKey")); discriminate. }
  subst status. split; [|split; [|split; [|split]]].
  - apply H. reflexivity.
  - apply H. reflexivity.
  - apply H. reflexivity.
  - apply H; discriminate.
  - apply H; discriminate.
Defined.

(** ** Query strings *)


Arguments includes : simpl never.

Section FilterFacts.

Variable modelName : string.
Variable declaration : ModelDeclaration.

Local Abbreviation step := (addFilter modelName declaration).

Lemma includes_neq k1 k2 :
  includes paginationKeys k1 = true -> includes paginationKeys k2 = false ->
  k1 <> k2.
Proof. intros H1 H2 ->. congruence. Qed.






End FilterFacts.




(** ** Pagination of the collection handler *)

Lemma take_given_true t :
  take_given t = true <->
  exists n, t = Some (Num n) /\ n <> 0%Z.
Proof.
  unfold take_given. split.
  - destruct t as [[n|]|]; simpl; try discriminate.
    intros H. exists n. split; [reflexivity|].
    intros ->. discriminate.
  - intros (n & -> & Hn). simpl.
    destruct (Z.eqb n 0) eqn:E; [apply Z.eqb_eq in E; contradiction | reflexivity].
Qed.

Lemma cursor_given_true c :
  cursor_given c = true <->
  exists s, c = Some s /\ s <> "".
Proof.
  unfold cursor_given, string_truthy. split.
  - destruct c as [s|]; [|discriminate].
    intros H. exists s. split; [reflexivity|].
    intros ->. discriminate.
  - intros (s & -> & Hs).
    destruct (String.eqb s "") eqn:E; [apply String.eqb_eq in E; contradiction | reflexivity].
Qed.

(** C10, as the code has it.  The collection handler fails as [getFilters]
    does, and otherwise passes [findMany] the where filters together with:
    take and skip when take parses to a number other than 0 and skip (0
    when absent) parses to a number; take and cursor when take parses to a
    number other than 0 and the cursor parameter is present and not empty.
    A skip that does not parse is not passed on, nor is a cursor that is
    absent or empty; when take is absent or parses to 0 or to no number,
    only the where filters are passed. *)
Theorem list_pagination_options
        (modelName : string) (declaration : ModelDeclaration)
        (searchParams : URLSearchParams) :
  let rawTake := searchParams_get searchParams "take" in
  let parsedSkip :=
    parseInt (match searchParams_get searchParams "skip" with
              | Some s => s
              | None => "0"
              end) in
  let cursorParam := searchParams_get searchParams "cursor" in
  (forall e,
      getFilters modelName declaration searchParams = Err e ->
      listOptions modelName declaration searchParams = Err e) /\
  (forall filters,
      getFilters modelName declaration searchParams = Ok filters ->
      exists options,
        listOptions modelName declaration searchParams = Ok options /\
        (forall findMany,
            listHandler modelName declaration findMany searchParams
            = (records <- findMany options ;;
               map_result removeInternalProperties records)) /\
        where_ options = filters /\
        (forall s n,
            rawTake = Some s -> parseInt s = Num n -> n <> 0%Z ->
            (forall k, parsedSkip = Num k ->
                       take options = Some (Num n) /\
                       skip options = Some (Num k)) /\
            (parsedSkip = NaN -> skip options = None) /\
            (forall c, cursorParam = Some c -> c <> "" ->
                       take options = Some (Num n) /\
                       cursor options = Some c) /\
            (cursorParam = None \/ cursorParam = Some "" ->
             cursor options = None) /\
            (parsedSkip = NaN ->
             cursorParam = None \/ cursorParam = Some "" ->
             take options = None)) /\
        (rawTake = None \/
         (exists s, rawTake = Some s /\
                    (parseInt s = NaN \/ parseInt s = Num 0)) ->
         options = mkOptions filters None None None)).
Proof.
  intros rawTake parsedSkip cursorParam. unfold listHandler, listOptions.
  fold rawTake. fold parsedSkip. fold cursorParam.
  split.
  - intros e ->. reflexivity.
  - intros filters ->. unfold bind at 1.
    eexists. split; [reflexivity|].
    split; [intros findMany; reflexivity|].
    set (t := option_map parseInt rawTake).
    split; [|split].
    + destruct (take_given t && negb (isNaN parsedSkip));
        destruct (take_given t &&
                  cursor_given cursorParam);
        reflexivity.
    + intros s n Hraw Hparse Hn.
      assert (Ht : take_given t = true).
      { apply take_given_true. exists n. subst t. rewrite Hraw. simpl.
        now rewrite Hparse. }
      assert (Htake : t = Some (Num n))
        by (subst t; rewrite Hraw; simpl; now rewrite Hparse).
      rewrite Ht, Htake. simpl andb.
      split; [|split; [|split; [|split]]].
      * intros k ->. simpl.
        destruct (cursor_given cursorParam); auto.
      * intros ->. simpl.
        destruct (cursor_given cursorParam); auto.
      * intros c Hc Hne.
        assert (Hcur : cursor_given cursorParam = true)
          by (apply cursor_given_true; eauto).
        rewrite Hcur, Hc. destruct (negb (isNaN parsedSkip)); auto.
      * intros Hc.
        assert (Hcur : cursor_given cursorParam = false)
          by (destruct Hc as [-> | ->]; reflexivity).
        rewrite Hcur. destruct (negb (isNaN parsedSkip)); reflexivity.
      * intros -> Hc.
        assert (Hcur : cursor_given cursorParam = false)
          by (destruct Hc as [-> | ->]; reflexivity).
        rewrite Hcur. reflexivity.
    + intros Hnone.
      assert (Ht : take_given t = false).
      { subst t. destruct Hnone as [-> | (s & -> & [Hs | Hs])]; simpl;
          [reflexivity | now rewrite Hs | now rewrite Hs]. }
      rewrite Ht. reflexivity.
Qed.

Lemma list_pagination_options_witness :
  exists options,
    listOptions "user" Examples.userDeclaration
                [("firstName", "Ann"); ("take", "5"); ("cursor", "user-1");
                 ("skip", "many")] = Ok options /\
    take options = Some (Num 5) /\ cursor options = Some "user-1" /\
    skip options = None.
Proof.
  destruct (list_pagination_options "user" Examples.userDeclaration
              [("firstName", "Ann"); ("take", "5"); ("cursor", "user-1");
               ("skip", "many")]) as (_ & Hok).
  destruct (Hok [("firstName", {| equals := "Ann" |})] eq_refl)
    as (options & Hoptions & _ & _ & Htake & _).
  exists options. split; [exact Hoptions|].
  destruct (Htake "5" 5%Z eq_refl eq_refl) as (_ & Hskip & Hcursor & _);
    [discriminate|].
  destruct (Hcursor "user-1" eq_refl) as (H1 & H2); [discriminate|].
  split; [exact H1 | split; [exact H2 | apply Hskip; reflexivity]].
Defined.

(** C10 as stated fails: take parses to 5 and a cursor parameter is
    present, but its value is empty and no cursor is passed on. *)
Lemma list_pagination_options_counterexample :
  searchParams_get [("take", "5"); ("cursor", "")] "take" = Some "5" /\
  parseInt "5" = Num 5 /\
  searchParams_get [("take", "5"); ("cursor", "")] "cursor" = Some "" /\
  listOptions "user" Examples.userDeclaration [("take", "5"); ("cursor", "")]
  = Ok {| where_ := []; take := Some (Num 5); skip := Some (Num 0);
          cursor := None |}.
Proof.
  repeat split.
Qed.

(** ** Projection of an internal entity *)

Lemma removeInternalProperties_reduce entity :
  removeInternalProperties entity = reduce strip_entry entity [].
Proof. reflexivity. Qed.

Lemma removeInternalProperties_value_object entries :
  removeInternalProperties_value (VObj entries)
  = removeInternalProperties entries.
Proof. reflexivity. Qed.

Lemma keys_obj_set_fresh {V : Type} (o : list (string * V)) k v :
  ~ In k (keys o) -> keys (obj_set o k v) = keys o ++ [k].
Proof.
  induction o as [|[k' v'] o IH]; simpl; intros Hk; [reflexivity|].
  destruct (String.eqb k' k) eqn:E.
  - apply String.eqb_eq in E. subst. exfalso. apply Hk. now left.
  - simpl. f_equal. apply IH. intros Hin. apply Hk. now right.
Qed.

Lemma isInternalEntity_object value :
  isInternalEntity value = Ok true ->
  exists entries, value = VObj entries /\ obj_has entries "__type" = true.
Proof.
  destruct value; simpl; intros H; try discriminate.
  exists entries. split; [reflexivity | congruence].
Qed.

Lemma strip_item_projection acc item acc' :
  strip_item acc item = Ok acc' ->
  exists item', acc' = acc ++ [item'] /\ item_projection item item'.
Proof.
  unfold strip_item. destruct (isInternalEntity item) as [[|]|] eqn:E;
    simpl; try discriminate.
  - destruct (isInternalEntity_object _ E) as (entries & -> & Htype).
    rewrite removeInternalProperties_value_object.
    destruct (removeInternalProperties entries) as [stripped|] eqn:Es;
      simpl; [|discriminate].
    intros H. inversion H. exists (VObj stripped). split; [reflexivity|].
    simpl. rewrite Htype. eauto.
  - intros H. inversion H. exists item. split; [reflexivity|].
    destruct item; simpl in *; try reflexivity.
    assert (Htype : obj_has entries "__type" = false) by congruence.
    now rewrite Htype.
Qed.

Lemma reduce_strip_item items : forall acc arr,
  reduce strip_item items acc = Ok arr ->
  exists items', arr = acc ++ items' /\ Forall2 item_projection items items'.
Proof.
  induction items as [|item items IH]; intros acc arr H.
  - inversion H. exists []. split; [now rewrite app_nil_r | constructor].
  - rewrite reduce_cons in H.
    destruct (strip_item acc item) as [acc'|] eqn:E; [|discriminate].
    destruct (strip_item_projection _ _ _ E) as (item' & -> & Hitem).
    destruct (IH _ _ H) as (items' & -> & Hitems).
    exists (item' :: items'). split; [now rewrite <- app_assoc | now constructor].
Qed.

(** An entry either is skipped, or writes the projection of its value
    under its own key. *)
Lemma strip_entry_shape acc key value acc' :
  strip_entry acc (key, value) = Ok acc' ->
  (startsWith__ key = true /\ acc' = acc) \/
  (startsWith__ key = false /\
   exists value', acc' = obj_set acc key value' /\
                  value_projection value value').
Proof.
  unfold strip_entry. destruct (startsWith__ key); simpl.
  - intros H. inversion H. left. auto.
  - intros H. right. split; [reflexivity|].
    destruct (isInternalEntity value) as [[|]|] eqn:E; simpl in H;
      try discriminate.
    + destruct (isInternalEntity_object _ E) as (entries & -> & Htype).
      rewrite removeInternalProperties_value_object in H.
      destruct (removeInternalProperties entries) as [stripped|] eqn:Es;
        simpl in H; [|discriminate].
      inversion H. exists (VObj stripped). split; [reflexivity|].
      simpl. rewrite Htype. eauto.
    + destruct value; simpl in E; try discriminate;
        try (inversion H; eexists; split; [reflexivity | reflexivity]).
      * destruct (reduce strip_item items []) as [arr|] eqn:Ea; simpl in H;
          [|discriminate].
        inversion H. exists (VArr arr). split; [reflexivity|].
        destruct (reduce_strip_item _ _ _ Ea) as (items' & -> & Hitems).
        simpl. eauto.
      * assert (Htype : obj_has entries "__type" = false) by congruence.
        inversion H.
        exists (VObj entries). split; [reflexivity|].
        simpl. now rewrite Htype.
Qed.

Lemma reduce_strip_entry_frame entries : forall acc result_ k,
  reduce strip_entry entries acc = Ok result_ -> ~ In k (keys entries) ->
  obj_get result_ k = obj_get acc k.
Proof.
  induction entries as [|[key value] entries IH]; intros acc result_ k H Hk.
  - inversion H. reflexivity.
  - rewrite reduce_cons in H. simpl in Hk.
    destruct (strip_entry acc (key, value)) as [acc'|] eqn:E; [|discriminate].
    change (reduce strip_entry entries acc' = Ok result_) in H.
    rewrite (IH _ _ k H) by tauto.
    destruct (strip_entry_shape _ _ _ _ E) as [(_ & ->) | (_ & v' & -> & _)];
      [reflexivity|].
    apply obj_get_set_neq. intros ->. tauto.
Qed.

Lemma reduce_strip_entry_keys entries : forall acc result_,
  NoDup (keys entries) ->
  (forall k, In k (keys entries) -> ~ In k (keys acc)) ->
  reduce strip_entry entries acc = Ok result_ ->
  keys result_
  = keys acc ++ filter (fun k => negb (startsWith__ k)) (keys entries).
Proof.
  induction entries as [|[key value] entries IH];
    intros acc result_ Hnd Hfresh H.
  - inversion H. simpl. now rewrite app_nil_r.
  - rewrite reduce_cons in H. simpl in Hnd. inversion Hnd as [|? ? Hkey Hnd'].
    subst.
    destruct (strip_entry acc (key, value)) as [acc'|] eqn:E; [|discriminate].
    change (reduce strip_entry entries acc' = Ok result_) in H.
    simpl keys. simpl filter.
    destruct (strip_entry_shape _ _ _ _ E)
      as [(Hs & ->) | (Hs & v' & -> & _)]; rewrite Hs; simpl.
    + apply IH; try assumption.
      intros k Hk. apply Hfresh. simpl. now right.
    + rewrite (IH _ _ Hnd' ) with (2 := H).
      * rewrite keys_obj_set_fresh by (apply Hfresh; simpl; now left).
        now rewrite <- app_assoc.
      * intros k Hk. rewrite keys_obj_set_fresh by (apply Hfresh; simpl; now left).
        intros Hin. apply in_app_or in Hin. destruct Hin as [Hin | [<- | []]].
        -- apply (Hfresh k); [simpl; now right | exact Hin].
        -- contradiction.
Qed.

Arguments removeInternalProperties_value : simpl never.

(** An entity that holds no [null] is projected without failure. *)
Lemma projection_total v :
  null_free v = true ->
  match v with
  | VObj entries => forall acc, exists r, reduce strip_entry entries acc = Ok r
  | VArr items => forall acc, exists r, reduce strip_item items acc = Ok r
  | _ => True
  end.
Proof.
  induction v using value_nested_ind; try (intros; exact I).
  - (* arrays *)
    simpl null_free. intros Hnull.
    induction H as [|item items Hitem _ IH]; intros acc; [simpl; eauto|].
    simpl in Hnull. apply andb_true_iff in Hnull. destruct Hnull as [Hn Hns].
    rewrite reduce_cons. unfold strip_item at 1.
    destruct item; simpl in Hn; try discriminate; simpl; try apply (IH Hns).
    destruct (obj_has entries "__type"); simpl; [|apply (IH Hns)].
    destruct (Hitem Hn []) as (r & Hr).
    rewrite removeInternalProperties_value_object,
      removeInternalProperties_reduce, Hr. simpl. apply (IH Hns).
  - (* objects *)
    simpl null_free. intros Hnull.
    induction H as [|[key value] entries Hvalue _ IH]; intros acc;
      [simpl; eauto|].
    simpl in Hnull. apply andb_true_iff in Hnull. destruct Hnull as [Hn Hns].
    rewrite reduce_cons. unfold strip_entry at 1.
    destruct (startsWith__ key); simpl; [apply (IH Hns)|].
    simpl in Hvalue.
    destruct value; simpl in Hn; try discriminate; simpl; try apply (IH Hns).
    + destruct (Hvalue Hn []) as (arr & Harr). rewrite Harr. simpl.
      apply (IH Hns).
    + destruct (obj_has entries0 "__type"); simpl; [|apply (IH Hns)].
      destruct (Hvalue Hn []) as (r & Hr).
      rewrite removeInternalProperties_value_object,
        removeInternalProperties_reduce, Hr. simpl. apply (IH Hns).
Qed.

(** C9, as the code has it.  For an entity that holds no null, the
    projection returns a result.  Whenever it returns one, the keys of the
    result are the keys of the entity that do not begin with two
    underscores, in the same order, so that no top-level key of the result
    begins with two underscores; under each such key the result holds the
    projection of the entity's value: a nested internal entity (an object
    with a __type key) is stripped recursively, the elements of an array
    that are internal entities are stripped recursively in place, and
    every other value and every other array element is passed through
    unchanged, whatever keys it holds inside. *)
Theorem internal_properties_removed (entity : list (string * value)) :
  NoDup (keys entity) ->
  (null_free (VObj entity) = true ->
   exists result_, removeInternalProperties entity = Ok result_) /\
  (forall result_,
      removeInternalProperties entity = Ok result_ ->
      keys result_ = filter (fun k => negb (startsWith__ k)) (keys entity) /\
      (forall key, In key (keys result_) -> startsWith__ key = false) /\
      (forall key value,
          In (key, value) entity -> startsWith__ key = false ->
          exists value',
            obj_get result_ key = Some value' /\
            value_projection value value')).
Proof.
  intros Hnd. split.
  - intros Hnull. rewrite removeInternalProperties_reduce.
    apply (projection_total (VObj entity) Hnull).
  - intros result_ Hr. rewrite removeInternalProperties_reduce in Hr.
    assert (Hkeys : keys result_
                    = filter (fun k => negb (startsWith__ k)) (keys entity)).
    { rewrite (reduce_strip_entry_keys entity [] result_ Hnd); auto. }
    split; [exact Hkeys | split].
    + intros key Hin. rewrite Hkeys in Hin. apply filter_In in Hin.
      destruct Hin as [_ Hin]. now destruct (startsWith__ key).
    + intros key value Hin Hkey.
      destruct (split_field _ _ _ Hnd Hin) as (before & after & -> & Hb & Ha).
      rewrite reduce_app in Hr.
      destruct (reduce strip_entry before []) as [acc|] eqn:E1; [|discriminate].
      unfold bind in Hr. rewrite reduce_cons in Hr.
      destruct (strip_entry acc (key, value)) as [acc'|] eqn:E2; [|discriminate].
      change (reduce strip_entry after acc' = Ok result_) in Hr.
      rewrite (reduce_strip_entry_frame _ _ _ key Hr Ha).
      destruct (strip_entry_shape _ _ _ _ E2)
        as [(Hs & _) | (_ & value' & -> & Hproj)]; [congruence|].
      exists value'. split; [apply obj_get_set_eq | exact Hproj].
Qed.

Lemma internal_properties_removed_witness :
  exists result_,
    removeInternalProperties Examples.storedPost = Ok result_ /\
    keys result_ = ["id"; "author"; "likes"; "publishedAt"] /\
    (exists author,
        obj_get result_ "author" = Some author /\
        value_projection Examples.alice author) /\
    (exists likes,
        obj_get result_ "likes" = Some likes /\
        value_projection
          (VArr [Examples.bob; VStr "anonymous"; Examples.alice]) likes).
Proof.
  assert (Hnd : NoDup (keys Examples.storedPost))
    by (repeat constructor; simpl; intuition discriminate).
  destruct (internal_properties_removed Examples.storedPost Hnd)
    as (Htotal & Hresult).
  destruct (Htotal eq_refl) as (result_ & Hr).
  destruct (Hresult result_ Hr) as (Hkeys & _ & Hvalues).
  exists result_. split; [exact Hr|]. split; [exact Hkeys|]. split.
  - apply Hvalues; [simpl; tauto | reflexivity].
  - apply Hvalues; [simpl; tauto | reflexivity].
Defined.

(** C9 as stated fails: keys that begin with two underscores survive inside
    an object that has no __type key and inside an array nested in an
    array. *)
Lemma internal_properties_removed_counterexample :
  removeInternalProperties Examples.storedPostWithNesting
  = Ok [("id", VStr "post-1");
        ("revision", VObj [("__v", VNum (Num 3))]);
        ("groups", VArr [VArr [Examples.alice]])] /\
  has_internal_key (VObj [("revision", VObj [("__v", VNum (Num 3))])]) = true /\
  has_internal_key (VObj [("groups", VArr [VArr [Examples.alice]])]) = true.
Proof.
  repeat split.
Qed.

(** * Further properties of the schema parser *)

Import Notions.

Lemma obj_get_keys {V : Type} (o : list (string * V)) k :
  In k (keys o) <-> obj_get o k <> None.
Proof.
  induction o as [|[k' v'] o IH]; simpl.
  - split; [contradiction | congruence].
  - destruct (String.eqb k' k) eqn:E.
    + apply String.eqb_eq in E. subst. split; [discriminate | auto].
    + rewrite <- IH. split; [intros [-> | H]; [|exact H] | auto].
      rewrite String.eqb_refl in E. discriminate.
Qed.

Section ParserExtras.

Variable findPrimaryKey : option ModelDeclaration -> option (option string).
Variable dictionary : ModelDictionary.
Variable modelName : string.
Variable declaration : ModelDeclaration.
Variable initialValues : option (list (string * value)).

Local Abbreviation step :=
  (reducer findPrimaryKey dictionary modelName declaration initialValues).
Local Abbreviation exactValue := (initial_value initialValues).


Lemma reducer_getter_default acc key generated :
  nullish (exactValue key) = true ->
  step acc (key, ValueGetter generated)
  = Ok (set_property acc key generated).
Proof.
  intros Hv. unfold reducer. simpl has_isPrimaryKey. cbv iota.
  rewrite (nullish_is_not_plain _ Hv). cbn [bind].
  rewrite (nullish_not_truthy _ Hv).
  reflexivity.
Qed.

(** A step on a flagged field that succeeds found no key assigned. *)
Lemma reducer_primary_key_ok acc key getValue acc' :
  step acc (key, PrimaryKeyDecl getValue) = Ok acc' ->
  acc' = {| primaryKey := Some key;
            properties :=
              obj_set (properties acc) key
                      (if truthy (exactValue key) then exactValue key
                       else getValue);
            relations := relations acc |}.
Proof.
  intros H.
  destruct (primaryKey_assigned acc) eqn:Hacc.
  - pose proof (reducer_flagged_field findPrimaryKey dictionary modelName
                  declaration initialValues acc key (PrimaryKeyDecl getValue)
                  eq_refl) as Hs.
    rewrite Hacc in Hs. congruence.
  - rewrite (reducer_primary_key findPrimaryKey dictionary modelName
               declaration initialValues acc key getValue Hacc) in H.
    congruence.
Qed.

(** A step depends on the initial values through the value supplied for
    its own field only. *)
Lemma reducer_initial_value initialValues' acc key d :
  initial_value initialValues key = initial_value initialValues' key ->
  step acc (key, d)
  = reducer findPrimaryKey dictionary modelName declaration initialValues'
            acc (key, d).
Proof.
  intros H. unfold reducer. now rewrite H.
Qed.

Lemma reduce_initial_values initialValues' l : forall acc,
  (forall key, In key (keys l) ->
               initial_value initialValues key
               = initial_value initialValues' key) ->
  reduce step l acc
  = reduce (reducer findPrimaryKey dictionary modelName declaration
                    initialValues') l acc.
Proof.
  induction l as [|[key d] l IH]; intros acc H; [reflexivity|].
  rewrite !reduce_cons.
  rewrite (reducer_initial_value initialValues' acc key d)
    by (apply H; simpl; now left).
  destruct (reducer _ _ _ _ initialValues' acc (key, d)); [|reflexivity].
  apply IH. intros k Hk. apply H. simpl. now right.
Qed.

(** The recorded primary key always has a property. *)
Lemma reducer_key_has_property acc key d acc' :
  step acc (key, d) = Ok acc' ->
  (forall k, primaryKey acc = Some k -> obj_get (properties acc) k <> None) ->
  forall k, primaryKey acc' = Some k -> obj_get (properties acc') k <> None.
Proof.
  intros H Hacc k Hk. apply reducer_shape in H.
  destruct H as [(v & -> & _) | (_ & [(v & ->) | (r & ->)])]; simpl in *.
  - inversion Hk; subst. rewrite obj_get_set_eq. discriminate.
  - destruct (String.eqb key k) eqn:E.
    + apply String.eqb_eq in E. subst. rewrite obj_get_set_eq. discriminate.
    + rewrite obj_get_set_neq; [now apply Hacc|].
      intros ->. rewrite String.eqb_refl in E. discriminate.
  - now apply Hacc.
Qed.

Lemma reduce_key_recorded l : forall acc r,
  reduce step l acc = Ok r ->
  (forall k, primaryKey acc = Some k -> obj_get (properties acc) k <> None) ->
  (forall k, primaryKey r = Some k -> obj_get (properties r) k <> None) /\
  match primaryKey r with
  | Some k => In k (primaryKeyFields l) \/ primaryKey acc = Some k
  | None => primaryKeyFields l = [] /\ primaryKey acc = None
  end.
Proof.
  induction l as [|[key d] l IH]; intros acc r H Hacc.
  - inversion H; subst. split; [exact Hacc|].
    destruct (primaryKey r); auto.
  - rewrite reduce_cons in H.
    destruct (step acc (key, d)) as [acc'|] eqn:E; [|discriminate].
    change (reduce step l acc' = Ok r) in H.
    destruct (IH _ _ H (reducer_key_has_property _ _ _ _ E Hacc)) as [Hp Hk].
    split; [exact Hp|].
    rewrite primaryKeyFields_cons.
    destruct (has_isPrimaryKey d) eqn:Hd.
    + pose proof (reducer_flagged_field findPrimaryKey dictionary modelName
                    declaration initialValues acc key d Hd) as Hs.
      destruct (primaryKey_assigned acc); [congruence|].
      destruct Hs as (acc'' & Hs & Hpk). rewrite Hs in E. inversion E; subst.
      destruct (primaryKey r) as [k|].
      * destruct Hk as [Hk | Hk]; [left; now right|].
        left. left. congruence.
      * destruct Hk as [_ Hk]. congruence.
    + pose proof (reducer_plain_field findPrimaryKey dictionary modelName
                    declaration initialValues acc key d Hd) as Hs.
      rewrite E in Hs. rewrite Hs in Hk. exact Hk.
Qed.

End ParserExtras.



(** X2.  A field declared by a getter for which nothing is supplied
    (undefined or null) stores the value its getter generates, and no
    relation. *)
Theorem getter_seeds_missing_value
        (findPrimaryKey : option ModelDeclaration -> option (option string))
        (dictionary : ModelDictionary) (modelName : string)
        (declaration : ModelDeclaration)
        (initialValues : option (list (string * value)))
        (key : string) (generated : value) :
  NoDup (keys declaration) ->
  In (key, ValueGetter generated) declaration ->
  nullish (initial_value initialValues key) = true ->
  forall r,
    parseModelDeclaration findPrimaryKey dictionary modelName declaration
                          initialValues = Ok r ->
    obj_get (properties r) key = Some generated /\
    obj_get (relations r) key = None.
Proof.
  intros Hnd Hin Hv r Hr.
  destruct (parse_at_field _ _ _ _ _ _ _ _ _ Hnd Hin Hr)
    as (acc & acc' & _ & Hrel & Hstep & Hp' & Hrel').
  rewrite (reducer_getter_default _ _ _ _ _ acc key generated Hv) in Hstep.
  inversion Hstep; subst acc'. simpl in *.
  rewrite Hp', Hrel', obj_get_set_eq. auto.
Qed.

Lemma getter_seeds_missing_value_witness :
  exists r,
    parseModelDeclaration Examples.findPrimaryKey_spec Examples.dictionary
                          "user" Examples.userDeclaration
                          (Some [("id", VStr "user-7"); ("firstName", VNull)])
    = Ok r /\
    obj_get (properties r) "firstName" = Some (VStr "John") /\
    obj_get (relations r) "firstName" = None.
Proof.
  eexists. split; [reflexivity|].
  eapply (getter_seeds_missing_value Examples.findPrimaryKey_spec
            Examples.dictionary "user" Examples.userDeclaration
            (Some [("id", VStr "user-7"); ("firstName", VNull)])
            "firstName" (VStr "John")).
  - repeat constructor; simpl; intuition discriminate.
  - simpl. tauto.
  - reflexivity.
  - reflexivity.
Defined.

(** X3.  In every parsed entity the field flagged as primary key stores the
    value supplied for it when that value is truthy, and the default
    generated by its descriptor when nothing (undefined or null) is
    supplied. *)
Theorem primary_key_value_stored
        (findPrimaryKey : option ModelDeclaration -> option (option string))
        (dictionary : ModelDictionary) (modelName : string)
        (declaration : ModelDeclaration)
        (initialValues : option (list (string * value)))
        (key : string) (getValue : value)
        (r : ParsedModelDeclaration) :
  NoDup (keys declaration) ->
  In (key, PrimaryKeyDecl getValue) declaration ->
  parseModelDeclaration findPrimaryKey dictionary modelName declaration
                        initialValues = Ok r ->
  (truthy (initial_value initialValues key) = true ->
   obj_get (properties r) key = Some (initial_value initialValues key)) /\
  (nullish (initial_value initialValues key) = true ->
   obj_get (properties r) key = Some getValue).
Proof.
  intros Hnd Hin Hr.
  destruct (parse_at_field _ _ _ _ _ _ _ _ _ Hnd Hin Hr)
    as (acc & acc' & _ & _ & Hstep & Hp' & _).
  apply reducer_primary_key_ok in Hstep. subst acc'. simpl in Hp'.
  rewrite Hp', obj_get_set_eq.
  split; intros Hv.
  - now rewrite Hv.
  - now rewrite (nullish_not_truthy _ Hv).
Qed.

Lemma primary_key_value_stored_witness :
  exists r,
    parseModelDeclaration Examples.findPrimaryKey_spec Examples.dictionary
                          "user" Examples.userDeclaration
                          (Some [("id", VStr "user-7")]) = Ok r /\
    obj_get (properties r) "id" = Some (VStr "user-7").
Proof.
  eexists. split; [reflexivity|].
  eapply (primary_key_value_stored Examples.findPrimaryKey_spec
            Examples.dictionary "user" Examples.userDeclaration
            (Some [("id", VStr "user-7")]) "id" (VStr "user-generated")).
  - repeat constructor; simpl; intuition discriminate.
  - simpl. tauto.
  - reflexivity.
  - reflexivity.
Defined.

(** X4.  A parsed entity holds every declared field exactly once, either
    among its properties or among its relations, and holds nothing under
    any other name: values supplied under names the schema does not declare
    are not copied. *)
Theorem parsed_fields_partition
        (findPrimaryKey : option ModelDeclaration -> option (option string))
        (dictionary : ModelDictionary) (modelName : string)
        (declaration : ModelDeclaration)
        (initialValues : option (list (string * value)))
        (r : ParsedModelDeclaration) :
  NoDup (keys declaration) ->
  parseModelDeclaration findPrimaryKey dictionary modelName declaration
                        initialValues = Ok r ->
  forall k,
    (In k (keys declaration) ->
     (obj_get (properties r) k <> None /\ obj_get (relations r) k = None) \/
     (obj_get (properties r) k = None /\ obj_get (relations r) k <> None)) /\
    (~ In k (keys declaration) ->
     obj_get (properties r) k = None /\ obj_get (relations r) k = None).
Proof.
  intros Hnd Hr k. split.
  - intros Hk. apply in_map_iff in Hk. destruct Hk as ([k' d] & Hfst & Hin).
    simpl in Hfst. subst k'.
    destruct (parse_at_field _ _ _ _ _ _ _ _ _ Hnd Hin Hr)
      as (acc & acc' & Hp & Hrel & Hstep & Hp' & Hrel').
    rewrite Hp', Hrel'. apply reducer_shape in Hstep.
    destruct Hstep as [(v & -> & _) | (_ & [(v & ->) | (rel & ->)])]; simpl.
    + left. rewrite obj_get_set_eq. split; [discriminate | exact Hrel].
    + left. rewrite obj_get_set_eq. split; [discriminate | exact Hrel].
    + right. rewrite obj_get_set_eq. split; [exact Hp | discriminate].
  - intros Hk. unfold parseModelDeclaration in Hr.
    destruct (reduce_frame _ _ _ _ _ _ _ _ k Hr Hk) as [Hp Hrel].
    simpl in Hp, Hrel. auto.
Qed.

Lemma parsed_fields_partition_witness :
  exists r,
    parseModelDeclaration Examples.findPrimaryKey_spec Examples.dictionary
                          "user" Examples.userDeclaration
                          (Some [("firstName", VStr "Ann");
                                 ("nickname", VStr "annie")]) = Ok r /\
    obj_get (properties r) "nickname" = None /\
    obj_get (relations r) "nickname" = None.
Proof.
  eexists. split; [reflexivity|].
  eapply (parsed_fields_partition Examples.findPrimaryKey_spec
            Examples.dictionary "user" Examples.userDeclaration
            (Some [("firstName", VStr "Ann"); ("nickname", VStr "annie")])).
  - repeat constructor; simpl; intuition discriminate.
  - reflexivity.
  - simpl. intuition discriminate.
Defined.

(** X5.  The primary key a parsed entity records is the name of a field the
    schema flags, and the entity has a property under that name; an entity
    records no primary key only when the schema flags no field. *)
Theorem recorded_primary_key_is_flagged
        (findPrimaryKey : option ModelDeclaration -> option (option string))
        (dictionary : ModelDictionary) (modelName : string)
        (declaration : ModelDeclaration)
        (initialValues : option (list (string * value)))
        (r : ParsedModelDeclaration) :
  parseModelDeclaration findPrimaryKey dictionary modelName declaration
                        initialValues = Ok r ->
  match primaryKey r with
  | Some k =>
      In k (primaryKeyFields declaration) /\
      exists v, obj_get (properties r) k = Some v
  | None => primaryKeyFields declaration = []
  end.
Proof.
  intros Hr. unfold parseModelDeclaration in Hr.
  destruct (reduce_key_recorded _ _ _ _ _ _ _ _ Hr) as [Hp Hk];
    [discriminate|].
  destruct (primaryKey r) as [k|] eqn:E.
  - destruct Hk as [Hk | Hk]; [|discriminate].
    split; [exact Hk|].
    specialize (Hp k eq_refl).
    destruct (obj_get (properties r) k) as [v|]; [eauto | contradiction].
  - tauto.
Qed.

Lemma recorded_primary_key_is_flagged_witness :
  exists r,
    parseModelDeclaration Examples.findPrimaryKey_spec Examples.dictionary
                          "user" Examples.userDeclaration None = Ok r /\
    match primaryKey r with
    | Some k =>
        In k (primaryKeyFields Examples.userDeclaration) /\
        exists v, obj_get (properties r) k = Some v
    | None => primaryKeyFields Examples.userDeclaration = []
    end.
Proof.
  eexists. split; [reflexivity|].
  apply (recorded_primary_key_is_flagged Examples.findPrimaryKey_spec
           Examples.dictionary "user" Examples.userDeclaration None).
  reflexivity.
Defined.

(** X6.  The parse depends on the initial values only through the values
    they hold under the names the schema declares. *)
Theorem parse_reads_declared_names_only
        (findPrimaryKey : option ModelDeclaration -> option (option string))
        (dictionary : ModelDictionary) (modelName : string)
        (declaration : ModelDeclaration)
        (initialValues initialValues' : option (list (string * value))) :
  (forall key, In key (keys declaration) ->
               initial_value initialValues key
               = initial_value initialValues' key) ->
  parseModelDeclaration findPrimaryKey dictionary modelName declaration
                        initialValues
  = parseModelDeclaration findPrimaryKey dictionary modelName declaration
                          initialValues'.
Proof.
  intros H. unfold parseModelDeclaration. now apply reduce_initial_values.
Qed.

Lemma parse_reads_declared_names_only_witness :
  parseModelDeclaration Examples.findPrimaryKey_spec Examples.dictionary
                        "user" Examples.userDeclaration
                        (Some [("nickname", VStr "annie");
                               ("firstName", VStr "Ann")])
  = parseModelDeclaration Examples.findPrimaryKey_spec Examples.dictionary
                          "user" Examples.userDeclaration
                          (Some [("firstName", VStr "Ann");
                                 ("id", VUndefined)]).
Proof.
  apply (parse_reads_declared_names_only Examples.findPrimaryKey_spec
           Examples.dictionary "user" Examples.userDeclaration).
  intros key [<- | [<- | []]]; reflexivity.
Defined.

Lemma map_make_ref_nullish target pk items :
  Exists (fun item => nullish item = true) items ->
  map_result (make_ref target pk) items = Err TypeError.
Proof.
  induction 1 as [item items Hitem | item items _ IH]; simpl.
  - unfold make_ref, js_index. now rewrite Hitem.
  - destruct (make_ref target pk item) as [ref|e] eqn:E; simpl.
    + now rewrite IH.
    + now rewrite (make_ref_error _ _ _ _ E).
Qed.

(** X7.  A ManyOf relation field supplied with an array that holds null or
    undefined fails with a TypeError at that field, and the parse yields
    no entity. *)
Theorem many_of_nullish_element_fails
        (findPrimaryKey : option ModelDeclaration -> option (option string))
        (dictionary : ModelDictionary) (modelName : string)
        (declaration : ModelDeclaration)
        (initialValues : option (list (string * value)))
        (key target : string) (unique : bool) (items : list value)
        (pk : option string) :
  NoDup (keys declaration) ->
  In (key, RelationDecl ManyOf target unique) declaration ->
  initial_value initialValues key = VArr items ->
  Exists (fun item => nullish item = true) items ->
  findPrimaryKey (obj_get dictionary target) = Some pk ->
  (forall acc,
      reducer findPrimaryKey dictionary modelName declaration initialValues
              acc (key, RelationDecl ManyOf target unique) = Err TypeError) /\
  (forall r,
      parseModelDeclaration findPrimaryKey dictionary modelName declaration
                            initialValues <> Ok r).
Proof.
  intros Hnd Hin Hv Hitems Hpk.
  assert (Hstep : forall acc,
             reducer findPrimaryKey dictionary modelName declaration
                     initialValues acc (key, RelationDecl ManyOf target unique)
             = Err TypeError).
  { intros acc. unfold reducer. simpl has_isPrimaryKey. cbv iota.
    rewrite Hv, array_is_not_plain. cbn [bind]. simpl truthy. cbv iota.
    rewrite (obj_get_in _ _ _ Hnd Hin). simpl get_modelName.
    simpl property_key. rewrite Hpk. simpl kind_is. cbv iota.
    now rewrite (map_make_ref_nullish _ _ _ Hitems). }
  split; [exact Hstep|].
  intros r Hr.
  destruct (parse_at_field _ _ _ _ _ _ _ _ _ Hnd Hin Hr)
    as (acc & acc' & _ & _ & Hacc' & _).
  rewrite Hstep in Hacc'. discriminate.
Qed.

Lemma many_of_nullish_element_fails_witness :
  reducer Examples.findPrimaryKey_spec Examples.dictionary "post"
          Examples.postDeclaration
          (Some [("author", Examples.alice);
                 ("likes", VArr [Examples.bob; VNull])])
          empty_parse ("likes", RelationDecl ManyOf "user" false)
  = Err TypeError.
Proof.
  eapply (many_of_nullish_element_fails Examples.findPrimaryKey_spec
            Examples.dictionary "post" Examples.postDeclaration
            (Some [("author", Examples.alice);
                   ("likes", VArr [Examples.bob; VNull])])
            "likes" "user" false [Examples.bob; VNull] (Some "id")).
  - repeat constructor; simpl; intuition discriminate.
  - simpl. tauto.
  - reflexivity.
  - right. left. reflexivity.
  - reflexivity.
Defined.

Lemma obj_set_fresh {V : Type} (o : list (string * V)) k v :
  ~ In k (keys o) -> obj_set o k v = o ++ [(k, v)].
Proof.
  induction o as [|[k' v'] o IH]; simpl; intros Hk; [reflexivity|].
  destruct (String.eqb k' k) eqn:E.
  - apply String.eqb_eq in E. subst. exfalso. apply Hk. now left.
  - f_equal. apply IH. intros Hin. apply Hk. now right.
Qed.

Section SeededParse.

Variable findPrimaryKey : option ModelDeclaration -> option (option string).
Variable dictionary : ModelDictionary.
Variable modelName : string.
Variable declaration : ModelDeclaration.
Variable initialValues : option (list (string * value)).

Local Abbreviation step :=
  (reducer findPrimaryKey dictionary modelName declaration initialValues).

Lemma reduce_seeded l : forall acc,
  (forall key d, In (key, d) l -> has_kind d = false) ->
  (forall key, In key (keys l) ->
               nullish (initial_value initialValues key) = true) ->
  NoDup (keys l) ->
  (forall key, In key (keys l) -> ~ In key (keys (properties acc))) ->
  List.length (primaryKeyFields l) <= 1 ->
  (primaryKeyFields l <> [] -> primaryKey_assigned acc = false) ->
  reduce step l acc
  = Ok {| primaryKey := match primaryKeyFields l with
                        | k :: _ => Some k
                        | [] => primaryKey acc
                        end;
          properties := properties acc ++ seeded_properties l;
          relations := relations acc |}.
Proof.
  induction l as [|[key d] l IH];
    intros acc Hkind Hnull Hnd Hfresh Hlen Hassigned.
  - simpl. rewrite app_nil_r. now destruct acc.
  - rewrite reduce_cons. rewrite primaryKeyFields_cons in *.
    inversion Hnd as [|? ? Hkey Hnd']; subst.
    assert (Hv : nullish (initial_value initialValues key) = true)
      by (apply Hnull; simpl; now left).
    assert (Hfr : ~ In key (keys (properties acc)))
      by (apply Hfresh; simpl; now left).
    assert (Hkind' : forall k d0, In (k, d0) l -> has_kind d0 = false)
      by (intros k d0 Hin; apply (Hkind k d0); now right).
    assert (Hnull' : forall k, In k (keys l) ->
                               nullish (initial_value initialValues k) = true)
      by (intros k Hin; apply Hnull; simpl; now right).
    assert (Hfresh' : forall v k, In k (keys l) ->
                        ~ In k (keys (obj_set (properties acc) key v))).
    { intros v k Hin. rewrite keys_obj_set_fresh by exact Hfr.
      intros Hin'. apply in_app_or in Hin'.
      destruct Hin' as [Hin' | [<- | []]]; [|contradiction].
      apply (Hfresh k); [simpl; now right | exact Hin']. }
    destruct d as [getValue | kind target unique | generated].
    + simpl in Hlen. simpl has_isPrimaryKey in *. cbv iota in *.
      assert (Hl : primaryKeyFields l = [])
        by (destruct (primaryKeyFields l); [reflexivity | simpl in Hlen; lia]).
      rewrite (reducer_primary_key _ _ _ _ _ acc key getValue)
        by (apply Hassigned; discriminate).
      unfold bind. rewrite (nullish_not_truthy _ Hv).
      rewrite IH; simpl; try assumption.
      * rewrite Hl. rewrite (obj_set_fresh _ _ _ Hfr), <- app_assoc.
        reflexivity.
      * apply Hfresh'.
      * rewrite Hl. simpl. lia.
      * rewrite Hl. congruence.
    + specialize (Hkind key (RelationDecl kind target unique)
                        (or_introl eq_refl)).
      discriminate.
    + simpl has_isPrimaryKey in *. cbv iota in *.
      rewrite (reducer_getter_default _ _ _ _ _ acc key generated Hv).
      unfold bind. rewrite IH; simpl; try assumption.
      * rewrite (obj_set_fresh _ _ _ Hfr), <- app_assoc. reflexivity.
      * apply Hfresh'.
Qed.

End SeededParse.

(** X8.  For a schema that declares no relation and flags at most one
    field, an entity created without any supplied value always parses: its
    properties are the values generated by the descriptors, in declaration
    order, its primary key is the flagged field, and it has no relation. *)
Theorem relation_free_schema_is_seeded
        (findPrimaryKey : option ModelDeclaration -> option (option string))
        (dictionary : ModelDictionary) (modelName : string)
        (declaration : ModelDeclaration)
        (initialValues : option (list (string * value))) :
  NoDup (keys declaration) ->
  (forall key d, In (key, d) declaration -> has_kind d = false) ->
  List.length (primaryKeyFields declaration) <= 1 ->
  (forall key, In key (keys declaration) ->
               nullish (initial_value initialValues key) = true) ->
  parseModelDeclaration findPrimaryKey dictionary modelName declaration
                        initialValues
  = Ok {| primaryKey := hd_error (primaryKeyFields declaration);
          properties := seeded_properties declaration;
          relations := [] |}.
Proof.
  intros Hnd Hkind Hlen Hnull. unfold parseModelDeclaration.
  rewrite reduce_seeded; try assumption.
  - simpl. now destruct (primaryKeyFields declaration).
  - intros key _ [].
  - reflexivity.
Qed.

Lemma relation_free_schema_is_seeded_witness :
  parseModelDeclaration Examples.findPrimaryKey_spec Examples.dictionary
                        "user" Examples.userDeclaration
                        (Some [("nickname", VStr "annie")])
  = Ok {| primaryKey := Some "id";
          properties := [("id", VStr "user-generated");
                         ("firstName", VStr "John")];
          relations := [] |}.
Proof.
  apply (relation_free_schema_is_seeded Examples.findPrimaryKey_spec
           Examples.dictionary "user" Examples.userDeclaration
           (Some [("nickname", VStr "annie")])).
  - repeat constructor; simpl; intuition discriminate.
  - intros key d [H | [H | []]]; inversion H; reflexivity.
  - simpl. lia.
  - intros key [<- | [<- | []]]; reflexivity.
Defined.

Section ParserFailures.

Variable findPrimaryKey : option ModelDeclaration -> option (option string).
Variable dictionary : ModelDictionary.
Variable modelName : string.
Variable declaration : ModelDeclaration.
Variable initialValues : option (list (string * value)).

Local Abbreviation step :=
  (reducer findPrimaryKey dictionary modelName declaration initialValues).

Lemma falsy_not_plain_nullish v :
  is_plain_initial_value v = Ok false -> truthy v = false ->
  nullish v = true.
Proof.
  destruct v; unfold is_plain_initial_value; simpl; congruence.
Qed.

Lemma reducer_failure acc key d e :
  In key (keys declaration) ->
  step acc (key, d) = Err e ->
  (e = MultiplePrimaryKeys modelName /\ has_isPrimaryKey d = true) \/
  (e = NoPrimaryKey /\ exists target, findPrimaryKey target = None) \/
  e = TypeError \/
  (e = RelationWithoutValue modelName key /\ has_kind d = true /\
   nullish (initial_value initialValues key) = true).
Proof.
  intros Hkey E. apply obj_get_keys in Hkey.
  destruct (has_isPrimaryKey d) eqn:Hd.
  - left. split; [|reflexivity].
    pose proof (reducer_flagged_field findPrimaryKey dictionary modelName
                  declaration initialValues acc key d Hd) as Hs.
    destruct (primaryKey_assigned acc); [congruence|].
    destruct Hs as (acc' & Hs & _). congruence.
  - right. unfold reducer in E. rewrite Hd in E.
    destruct (is_plain_initial_value (initial_value initialValues key))
      as [[|]|e'] eqn:Hplain; cbn [bind] in E;
      [discriminate | | inversion E; subst; right; left;
                        now apply (is_plain_initial_value_error _ _ Hplain)].
    destruct (truthy (initial_value initialValues key)) eqn:Htruthy.
    + destruct (obj_get declaration key) as [rd|].
      * destruct (findPrimaryKey _) as [pk|] eqn:Hpk;
          [|left; inversion E; eauto].
        right. left. clear Hplain.
        destruct (initial_value initialValues key) eqn:Ev;
          try (destruct (kind_is rd OneOf); [|discriminate];
               destruct (make_ref (get_modelName rd) pk _) eqn:Er;
               simpl in E;
               [discriminate
               | inversion E; subst; eapply make_ref_error; eauto]).
        destruct (kind_is rd ManyOf); [|discriminate].
        destruct (map_result _ items) eqn:Er; simpl in E; [discriminate|].
        inversion E; subst. eapply map_make_ref_error; eauto.
      * contradiction.
    + destruct d; simpl in *; try discriminate.
      right. right. inversion E. split; [reflexivity|].
      split; [reflexivity|]. now apply falsy_not_plain_nullish.
Qed.

End ParserFailures.

(** X9.  The failures of the parse.  It fails only with
    MultiplePrimaryKeys for the model being parsed, with a failure of the
    primary-key resolver (and then the resolver did fail on some model),
    with a TypeError, or with RelationWithoutValue naming the model and a
    field that the schema declares as a relation and for which nothing
    (undefined or null) was supplied. *)
Theorem parse_failures
        (findPrimaryKey : option ModelDeclaration -> option (option string))
        (dictionary : ModelDictionary) (modelName : string)
        (declaration : ModelDeclaration)
        (initialValues : option (list (string * value)))
        (e : error) :
  parseModelDeclaration findPrimaryKey dictionary modelName declaration
                        initialValues = Err e ->
  e = MultiplePrimaryKeys modelName \/
  (e = NoPrimaryKey /\ exists target, findPrimaryKey target = None) \/
  e = TypeError \/
  (exists key kind target unique,
      e = RelationWithoutValue modelName key /\
      In (key, RelationDecl kind target unique) declaration /\
      nullish (initial_value initialValues key) = true).
Proof.
  unfold parseModelDeclaration.
  assert (H : forall l acc,
             (forall entry, In entry l -> In entry declaration) ->
             reduce (reducer findPrimaryKey dictionary modelName declaration
                             initialValues) l acc = Err e ->
             e = MultiplePrimaryKeys modelName \/
             (e = NoPrimaryKey /\ exists target, findPrimaryKey target = None) \/
             e = TypeError \/
             (exists key kind target unique,
                 e = RelationWithoutValue modelName key /\
                 In (key, RelationDecl kind target unique) declaration /\
                 nullish (initial_value initialValues key) = true)).
  { induction l as [|[key d] l IH]; intros acc Hsub Hl; [discriminate|].
    rewrite reduce_cons in Hl.
    destruct (reducer _ _ _ _ _ acc (key, d)) as [acc'|e'] eqn:E.
    - apply (IH acc'); [|exact Hl]. intros entry Hin. apply Hsub. now right.
    - simpl in Hl. inversion Hl; subst e'.
      assert (Hkey : In key (keys declaration)).
      { change key with (fst (key, d)). apply in_map. apply Hsub. now left. }
      destruct (reducer_failure _ _ _ _ _ _ _ _ _ Hkey E)
        as [[-> _] | [H | [-> | (-> & Hkind & Hv)]]]; auto.
      right. right. right.
      destruct d as [? | kind target unique | ?]; try discriminate.
      exists key, kind, target, unique.
      split; [reflexivity|]. split; [|exact Hv].
      apply Hsub. now left. }
  apply H. auto.
Qed.

Lemma parse_failures_witness :
  exists key kind target unique,
    RelationWithoutValue "post" "author" = RelationWithoutValue "post" key /\
    In (key, RelationDecl kind target unique) Examples.postDeclaration /\
    nullish (initial_value None key) = true.
Proof.
  pose proof (parse_failures Examples.findPrimaryKey_spec Examples.dictionary
                "post" Examples.postDeclaration None
                (RelationWithoutValue "post" "author") eq_refl) as H.
  destruct H as [H | [[H _] | [H | H]]]; try discriminate. exact H.
Defined.

(** * Further properties of the projection *)

Lemma keys_obj_set_in {V : Type} (o : list (string * V)) k v k' :
  In k' (keys (obj_set o k v)) -> k' = k \/ In k' (keys o).
Proof.
  induction o as [|[k0 v0] o IH]; simpl.
  - intros [<- | []]. now left.
  - destruct (String.eqb k0 k) eqn:E; simpl.
    + apply String.eqb_eq in E. subst. intros [<- | H]; auto.
    + intros [<- | H]; auto. destruct (IH H); auto.
Qed.

Lemma obj_set_NoDup {V : Type} (o : list (string * V)) k v :
  NoDup (keys o) -> NoDup (keys (obj_set o k v)).
Proof.
  induction o as [|[k0 v0] o IH]; simpl; intros Hnd.
  - repeat constructor. intros [].
  - inversion Hnd as [|? ? Hk0 Hnd']; subst.
    destruct (String.eqb k0 k) eqn:E; simpl.
    + apply String.eqb_eq in E. subst. now constructor.
    + constructor; [|now apply IH].
      intros Hin. apply keys_obj_set_in in Hin. destruct Hin as [-> | Hin].
      * rewrite String.eqb_refl in E. discriminate.
      * contradiction.
Qed.

Lemma Forall_obj_set {V : Type} (P : string * V -> Prop) o k v :
  Forall P o -> P (k, v) -> Forall P (obj_set o k v).
Proof.
  induction 1 as [|[k0 v0] o Hx Ho IH]; simpl; intros Hkv.
  - now repeat constructor.
  - destruct (String.eqb k0 k); constructor; auto.
Qed.

Lemma Forall_app_one {A : Type} (P : A -> Prop) l x :
  Forall P l -> P x -> Forall P (l ++ [x]).
Proof.
  intros Hl Hx. apply Forall_app. split; [exact Hl | now constructor].
Qed.

(** The keys of a projection that were not in the accumulator are keys
    that do not begin with two underscores. *)
Lemma reduce_strip_entry_public entries : forall acc result_ k,
  reduce strip_entry entries acc = Ok result_ ->
  In k (keys result_) -> In k (keys acc) \/ startsWith__ k = false.
Proof.
  induction entries as [|[key value] entries IH]; intros acc result_ k H Hk.
  - inversion H; subst. now left.
  - rewrite reduce_cons in H.
    destruct (strip_entry acc (key, value)) as [acc'|] eqn:E; [|discriminate].
    change (reduce strip_entry entries acc' = Ok result_) in H.
    destruct (IH _ _ k H Hk) as [Hin | Hpub]; [|now right].
    destruct (strip_entry_shape _ _ _ _ E)
      as [(_ & ->) | (Hs & v' & -> & _)]; [now left|].
    apply keys_obj_set_in in Hin. destruct Hin as [-> | Hin]; auto.
Qed.

Lemma stripped_is_external_item entries stripped :
  removeInternalProperties entries = Ok stripped ->
  is_external_item (VObj stripped) = true.
Proof.
  intros H. rewrite removeInternalProperties_reduce in H. simpl.
  unfold obj_has.
  destruct (obj_get stripped "__type") eqn:E; [|reflexivity].
  assert (Hin : In "__type" (keys stripped))
    by (apply obj_get_keys; congruence).
  destruct (reduce_strip_entry_public _ _ _ _ H Hin) as [[] | Hpub].
  discriminate.
Qed.

Lemma strip_item_external acc item acc' :
  strip_item acc item = Ok acc' ->
  exists item', acc' = acc ++ [item'] /\ is_external_item item' = true.
Proof.
  unfold strip_item. destruct (isInternalEntity item) as [[|]|] eqn:E;
    simpl; try discriminate.
  - destruct (isInternalEntity_object _ E) as (entries & -> & Htype).
    rewrite removeInternalProperties_value_object.
    destruct (removeInternalProperties entries) as [stripped|] eqn:Es;
      simpl; [|discriminate].
    intros H. inversion H. exists (VObj stripped). split; [reflexivity|].
    eapply stripped_is_external_item; eauto.
  - intros H. inversion H. exists item. split; [reflexivity|].
    destruct item; simpl in *; try reflexivity; try discriminate.
    assert (Htype : obj_has entries "__type" = false) by congruence.
    now rewrite Htype.
Qed.

Lemma reduce_strip_item_external items : forall acc arr,
  reduce strip_item items acc = Ok arr ->
  forallb is_external_item acc = true ->
  forallb is_external_item arr = true.
Proof.
  induction items as [|item items IH]; intros acc arr H Hacc.
  - inversion H; subst. exact Hacc.
  - rewrite reduce_cons in H.
    destruct (strip_item acc item) as [acc'|] eqn:E; [|discriminate].
    destruct (strip_item_external _ _ _ E) as (item' & -> & Hitem).
    apply (IH _ _ H). rewrite forallb_app, Hacc. simpl. now rewrite Hitem.
Qed.

Lemma strip_entry_external acc key value acc' :
  strip_entry acc (key, value) = Ok acc' ->
  is_external acc = true -> is_external acc' = true.
Proof.
  intros H Hacc.
  assert (Hset : forall v', startsWith__ key = false ->
                            is_external_value v' = true ->
                            is_external (obj_set acc key v') = true).
  { intros v' Hkey Hv'. unfold is_external in *.
    apply forallb_forall. apply Forall_forall. apply Forall_obj_set.
    - apply Forall_forall. now apply forallb_forall.
    - simpl. now rewrite Hkey, Hv'. }
  unfold strip_entry in H. destruct (startsWith__ key) eqn:Hkey; simpl in H.
  - now inversion H; subst.
  - destruct (isInternalEntity value) as [[|]|] eqn:E; simpl in H;
      try discriminate.
    + destruct (isInternalEntity_object _ E) as (entries & -> & Htype).
      rewrite removeInternalProperties_value_object in H.
      destruct (removeInternalProperties entries) as [stripped|] eqn:Es;
        simpl in H; [|discriminate].
      inversion H; subst. apply Hset; [reflexivity|].
      apply (stripped_is_external_item _ _ Es).
    + destruct value; simpl in E; try discriminate;
        try (inversion H; subst; apply Hset; reflexivity).
      * destruct (reduce strip_item items []) as [arr|] eqn:Ea; simpl in H;
          [|discriminate].
        inversion H; subst. apply Hset; [reflexivity|]. simpl.
        apply (reduce_strip_item_external _ _ _ Ea). reflexivity.
      * assert (Htype : obj_has entries "__type" = false) by congruence.
        inversion H; subst. apply Hset; [reflexivity|]. simpl.
        now rewrite Htype.
Qed.

Lemma reduce_strip_entry_external entries : forall acc result_,
  reduce strip_entry entries acc = Ok result_ ->
  is_external acc = true -> NoDup (keys acc) ->
  is_external result_ = true /\ NoDup (keys result_).
Proof.
  induction entries as [|[key value] entries IH]; intros acc result_ H Hacc Hnd.
  - inversion H; subst. auto.
  - rewrite reduce_cons in H.
    destruct (strip_entry acc (key, value)) as [acc'|] eqn:E; [|discriminate].
    change (reduce strip_entry entries acc' = Ok result_) in H.
    apply (IH _ _ H).
    + eapply strip_entry_external; eauto.
    + destruct (strip_entry_shape _ _ _ _ E)
        as [(_ & ->) | (_ & v' & -> & _)]; [exact Hnd|].
      now apply obj_set_NoDup.
Qed.

Lemma reduce_strip_item_fixed items : forall acc,
  forallb is_external_item items = true ->
  reduce strip_item items acc = Ok (acc ++ items).
Proof.
  induction items as [|item items IH]; intros acc Hitems.
  - simpl. now rewrite app_nil_r.
  - simpl in Hitems. apply andb_true_iff in Hitems.
    destruct Hitems as [Hitem Hitems].
    rewrite reduce_cons.
    assert (Hstep : strip_item acc item = Ok (acc ++ [item])).
    { unfold strip_item. destruct item; simpl in *; try reflexivity;
        try discriminate.
      apply negb_true_iff in Hitem. now rewrite Hitem. }
    rewrite Hstep. unfold bind. rewrite IH by exact Hitems.
    now rewrite <- app_assoc.
Qed.

Lemma reduce_strip_entry_fixed entries : forall acc,
  is_external entries = true -> NoDup (keys entries) ->
  (forall k, In k (keys entries) -> ~ In k (keys acc)) ->
  reduce strip_entry entries acc = Ok (acc ++ entries).
Proof.
  induction entries as [|[key value] entries IH]; intros acc Hext Hnd Hfresh.
  - simpl. now rewrite app_nil_r.
  - unfold is_external in Hext. simpl in Hext.
    apply andb_true_iff in Hext. destruct Hext as [Hentry Hext].
    apply andb_true_iff in Hentry. destruct Hentry as [Hkey Hvalue].
    inversion Hnd as [|? ? Hk Hnd']; subst.
    assert (Hfr : ~ In key (keys acc)) by (apply Hfresh; simpl; now left).
    rewrite reduce_cons.
    assert (Hstep : strip_entry acc (key, value)
                    = Ok (acc ++ [(key, value)])).
    { unfold strip_entry. rewrite Hkey.
      destruct value; simpl in Hvalue; simpl; try discriminate;
        try (now rewrite (obj_set_fresh _ _ _ Hfr)).
      - rewrite (reduce_strip_item_fixed items [] Hvalue). simpl.
        now rewrite (obj_set_fresh _ _ _ Hfr).
      - apply negb_true_iff in Hvalue. rewrite Hvalue. simpl.
        now rewrite (obj_set_fresh _ _ _ Hfr). }
    rewrite Hstep. unfold bind. rewrite IH; try assumption.
    + now rewrite <- app_assoc.
    + intros k Hin Hin'. rewrite keys_app in Hin'. apply in_app_or in Hin'.
      destruct Hin' as [Hin' | [<- | []]]; [|contradiction].
      apply (Hfresh k); [simpl; now right | exact Hin'].
Qed.

Lemma removeInternalProperties_fixed entity :
  NoDup (keys entity) -> is_external entity = true ->
  removeInternalProperties entity = Ok entity.
Proof.
  intros Hnd Hext. rewrite removeInternalProperties_reduce.
  rewrite reduce_strip_entry_fixed; try assumption; [reflexivity|].
  intros k _ [].
Qed.

(** X10.  The projection leaves an entity without bookkeeping as it is: if
    no key begins with two underscores, no value is null or an internal
    entity, and no array holds null or an internal entity, the result is
    the entity itself. *)
Theorem external_entity_is_unchanged (entity : list (string * value)) :
  NoDup (keys entity) ->
  is_external entity = true ->
  removeInternalProperties entity = Ok entity.
Proof.
  exact (removeInternalProperties_fixed entity).
Qed.

Lemma external_entity_is_unchanged_witness :
  removeInternalProperties
    [("id", VStr "post-1");
     ("revision", VObj [("__v", VNum (Num 3))]);
     ("tags", VArr [VStr "a"; VStr "b"])]
  = Ok [("id", VStr "post-1");
        ("revision", VObj [("__v", VNum (Num 3))]);
        ("tags", VArr [VStr "a"; VStr "b"])].
Proof.
  apply external_entity_is_unchanged.
  - repeat constructor; simpl; intuition discriminate.
  - reflexivity.
Defined.

(** X11.  The projection is idempotent: what it returns has distinct keys
    and no bookkeeping left for it to remove, and projecting it again
    returns it unchanged. *)
Theorem projection_is_idempotent (entity result_ : list (string * value)) :
  removeInternalProperties entity = Ok result_ ->
  NoDup (keys result_) /\
  is_external result_ = true /\
  removeInternalProperties result_ = Ok result_.
Proof.
  intros H. rewrite removeInternalProperties_reduce in H.
  destruct (reduce_strip_entry_external _ _ _ H eq_refl (NoDup_nil _))
    as [Hext Hnd].
  split; [exact Hnd | split; [exact Hext|]].
  now apply removeInternalProperties_fixed.
Qed.

Lemma projection_is_idempotent_witness :
  exists result_,
    removeInternalProperties Examples.storedPost = Ok result_ /\
    removeInternalProperties result_ = Ok result_.
Proof.
  eexists. split; [reflexivity|].
  eapply (projection_is_idempotent Examples.storedPost). reflexivity.
Defined.

(** Every failure of the projection is a TypeError. *)
Lemma projection_failure v :
  match v with
  | VObj entries =>
      forall acc e, reduce strip_entry entries acc = Err e -> e = TypeError
  | VArr items =>
      forall acc e, reduce strip_item items acc = Err e -> e = TypeError
  | _ => True
  end.
Proof.
  induction v using value_nested_ind; try exact I.
  - (* arrays *)
    induction H as [|item items Hitem _ IH]; intros acc e He; [discriminate|].
    rewrite reduce_cons in He. unfold strip_item at 1 in He.
    destruct item; simpl in He; try (now apply (IH _ _ He));
      try (inversion He; reflexivity).
    destruct (obj_has entries "__type"); simpl in He;
      [|now apply (IH _ _ He)].
    rewrite removeInternalProperties_value_object,
      removeInternalProperties_reduce in He.
    destruct (reduce strip_entry entries []) as [r|e'] eqn:Er; simpl in He.
    + now apply (IH _ _ He).
    + inversion He; subst. apply (Hitem _ _ Er).
  - (* objects *)
    induction H as [|[key value] entries Hvalue _ IH]; intros acc e He;
      [discriminate|].
    rewrite reduce_cons in He. unfold strip_entry at 1 in He.
    destruct (startsWith__ key); simpl in He; [now apply (IH _ _ He)|].
    simpl in Hvalue.
    destruct value; simpl in He; try (now apply (IH _ _ He));
      try (inversion He; reflexivity).
    + destruct (reduce strip_item items []) as [arr|e'] eqn:Ea; simpl in He.
      * now apply (IH _ _ He).
      * inversion He; subst. apply (Hvalue _ _ Ea).
    + destruct (obj_has entries0 "__type"); simpl in He;
        [|now apply (IH _ _ He)].
      rewrite removeInternalProperties_value_object,
        removeInternalProperties_reduce in He.
      destruct (reduce strip_entry entries0 []) as [r|e'] eqn:Er; simpl in He.
      * now apply (IH _ _ He).
      * inversion He; subst. apply (Hvalue _ _ Er).
Qed.

Lemma reduce_strip_item_null items : forall acc,
  In VNull items -> reduce strip_item items acc = Err TypeError.
Proof.
  induction items as [|item items IH]; intros acc Hin; [contradiction|].
  rewrite reduce_cons.
  destruct (strip_item acc item) as [acc'|e] eqn:E.
  - destruct Hin as [-> | Hin]; [discriminate|]. now apply IH.
  - simpl. f_equal.
    apply (projection_failure (VArr [item]) acc e).
    rewrite reduce_cons, E. reflexivity.
Qed.

(** X12.  The projection fails with a TypeError, and with nothing else,
    when a key that does not begin with two underscores holds null, or
    holds an array with a null element; null under a key that begins with
    two underscores is skipped with the key. *)
Theorem projection_fails_on_null (entity : list (string * value)) :
  (forall e, removeInternalProperties entity = Err e -> e = TypeError) /\
  (forall key value,
      In (key, value) entity -> startsWith__ key = false ->
      value = VNull \/ (exists items, value = VArr items /\ In VNull items) ->
      removeInternalProperties entity = Err TypeError) /\
  (forall key,
      startsWith__ key = true ->
      removeInternalProperties ((key, VNull) :: entity)
      = removeInternalProperties entity).
Proof.
  split; [|split].
  - intros e He. rewrite removeInternalProperties_reduce in He.
    apply (projection_failure (VObj entity) [] e He).
  - intros key value Hin Hkey Hnull.
    rewrite removeInternalProperties_reduce.
    destruct (in_split _ _ Hin) as (before & after & ->).
    rewrite reduce_app.
    destruct (reduce strip_entry before []) as [acc|e] eqn:Eb.
    + unfold bind. rewrite reduce_cons.
      assert (Hstep : strip_entry acc (key, value) = Err TypeError).
      { unfold strip_entry. rewrite Hkey. simpl.
        destruct Hnull as [-> | (items & -> & Hitems)]; [reflexivity|].
        simpl. now rewrite (reduce_strip_item_null _ [] Hitems). }
      now rewrite Hstep.
    + simpl. f_equal. apply (projection_failure (VObj before) [] e Eb).
  - intros key Hkey. rewrite !removeInternalProperties_reduce, reduce_cons.
    unfold strip_entry at 1. now rewrite Hkey.
Qed.

Lemma projection_fails_on_null_witness :
  removeInternalProperties
    [("__type", VStr "post"); ("id", VStr "post-1"); ("author", VNull)]
  = Err TypeError /\
  removeInternalProperties
    [("id", VStr "post-1"); ("likes", VArr [Examples.alice; VNull])]
  = Err TypeError /\
  removeInternalProperties [("__owner", VNull); ("id", VStr "post-1")]
  = removeInternalProperties [("id", VStr "post-1")].
Proof.
  split; [|split].
  - destruct (projection_fails_on_null
                [("__type", VStr "post"); ("id", VStr "post-1");
                 ("author", VNull)]) as (_ & Hnull & _).
    apply (Hnull "author" VNull); [simpl; tauto | reflexivity | now left].
  - destruct (projection_fails_on_null
                [("id", VStr "post-1");
                 ("likes", VArr [Examples.alice; VNull])]) as (_ & Hnull & _).
    apply (Hnull "likes" (VArr [Examples.alice; VNull]));
      [simpl; tauto | reflexivity |].
    right. exists [Examples.alice; VNull]. split; [reflexivity|].
    simpl. tauto.
  - destruct (projection_fails_on_null [("id", VStr "post-1")])
      as (_ & _ & Hskip).
    apply (Hskip "__owner"). reflexivity.
Defined.

(** * Further properties of the query translation *)

Section FilterExtras.

Variable modelName : string.
Variable declaration : ModelDeclaration.

Local Abbreviation step := (addFilter modelName declaration).

Lemma reduce_addFilter_known searchParams : forall acc,
  (forall key value,
      In (key, value) searchParams ->
      includes paginationKeys key = true \/
      declaration_has declaration key = true) ->
  exists filters, reduce step searchParams acc = Ok filters.
Proof.
  induction searchParams as [|[key value] searchParams IH]; intros acc H;
    [simpl; eauto|].
  rewrite reduce_cons. unfold addFilter at 1.
  assert (H' : forall k v, In (k, v) searchParams ->
                           includes paginationKeys k = true \/
                           declaration_has declaration k = true)
    by (intros k v Hin; apply (H k v); now right).
  destruct (includes paginationKeys key) eqn:Hkey; [now apply IH|].
  destruct (H key value (or_introl eq_refl)) as [Hk | Hk]; [congruence|].
  rewrite Hk. now apply IH.
Qed.

Lemma reduce_addFilter_without_pagination searchParams : forall acc,
  reduce step searchParams acc
  = reduce step (without_pagination searchParams) acc.
Proof.
  induction searchParams as [|[key value] searchParams IH]; intros acc;
    [reflexivity|].
  unfold without_pagination. simpl filter.
  destruct (includes paginationKeys key) eqn:Hkey; simpl negb; cbv iota.
  - rewrite reduce_cons. unfold addFilter at 1. rewrite Hkey.
    unfold bind. apply IH.
  - rewrite !reduce_cons.
    destruct (step acc (key, value)); [apply IH | reflexivity].
Qed.

Lemma getFilters_first_unknown before after key value :
  (forall k v, In (k, v) before ->
               includes paginationKeys k = true \/
               declaration_has declaration k = true) ->
  includes paginationKeys key = false ->
  declaration_has declaration key = false ->
  getFilters modelName declaration (before ++ (key, value) :: after)
  = Err (HTTPBadRequest modelName key).
Proof.
  intros Hbefore Hkey Hdecl. unfold getFilters. rewrite reduce_app.
  destruct (reduce_addFilter_known before [] Hbefore) as (filters & ->).
  unfold bind. rewrite reduce_cons. unfold addFilter at 1.
  now rewrite Hkey, Hdecl.
Qed.

End FilterExtras.

(** X13.  [getFilters] reports the first offending parameter, that is the
    first parameter that is not a pagination key and whose name the
    declaration object does not have, neither as a declared property nor
    as a member inherited from Object.prototype: the failure is the
    BadRequest that names the model and that parameter, whatever follows
    it in the query string. *)
Theorem first_unknown_parameter_is_reported
        (modelName : string) (declaration : ModelDeclaration)
        (before after : URLSearchParams) (key value : string) :
  (forall k v, In (k, v) before ->
               includes paginationKeys k = true \/
               declaration_has declaration k = true) ->
  includes paginationKeys key = false ->
  declaration_has declaration key = false ->
  getFilters modelName declaration (before ++ (key, value) :: after)
  = Err (HTTPBadRequest modelName key).
Proof.
  apply getFilters_first_unknown.
Qed.

Lemma first_unknown_parameter_is_reported_witness :
  getFilters "user" Examples.userDeclaration
             [("take", "2"); ("firstName", "Ann"); ("age", "7");
              ("height", "170")]
  = Err (HTTPBadRequest "user" "age").
Proof.
  apply (first_unknown_parameter_is_reported "user" Examples.userDeclaration
           [("take", "2"); ("firstName", "Ann")] [("height", "170")]
           "age" "7").
  - intros k v [H | [H | []]]; inversion H; subst; [left | right]; reflexivity.
  - reflexivity.
  - reflexivity.
Defined.

(** X14.  The pagination parameters play no part in the translation:
    [getFilters] returns, or fails, exactly as it does on the query string
    with cursor, skip and take removed; a query string that holds nothing
    else yields no filter. *)
Theorem pagination_parameters_do_not_filter
        (modelName : string) (declaration : ModelDeclaration)
        (searchParams : URLSearchParams) :
  getFilters modelName declaration searchParams
  = getFilters modelName declaration (without_pagination searchParams) /\
  (without_pagination searchParams = [] ->
   getFilters modelName declaration searchParams = Ok []).
Proof.
  assert (H : getFilters modelName declaration searchParams
              = getFilters modelName declaration
                           (without_pagination searchParams))
    by apply reduce_addFilter_without_pagination.
  split; [exact H|].
  intros Hnone. rewrite H, Hnone. reflexivity.
Qed.

Lemma pagination_parameters_do_not_filter_witness :
  getFilters "user" Examples.userDeclaration
             [("cursor", "user-1"); ("take", "2"); ("skip", "1")] = Ok [].
Proof.
  apply (pagination_parameters_do_not_filter "user" Examples.userDeclaration
           [("cursor", "user-1"); ("take", "2"); ("skip", "1")]).
  reflexivity.
Defined.

(** * Properties of the resolvers *)

Lemma map_result_Forall2 {A B : Type} (f : A -> result B) l : forall ys,
  map_result f l = Ok ys -> Forall2 (fun x y => f x = Ok y) l ys.
Proof.
  induction l as [|x l IH]; intros ys H.
  - inversion H. constructor.
  - simpl in H. destruct (f x) as [y|] eqn:E; simpl in H; [|discriminate].
    destruct (map_result f l) as [ys'|]; simpl in H; [|discriminate].
    inversion H. constructor; auto.
Qed.

Lemma map_result_total {A B : Type} (f : A -> result B) l :
  Forall (fun x => exists y, f x = Ok y) l ->
  exists ys, map_result f l = Ok ys.
Proof.
  induction 1 as [|x l (y & Hy) _ (ys & IH)]; simpl; [eauto|].
  rewrite Hy, IH. simpl. eauto.
Qed.

Lemma null_free_projection entity :
  null_free (VObj entity) = true ->
  exists stripped,
    removeInternalProperties entity = Ok stripped /\
    is_external stripped = true.
Proof.
  intros Hnull.
  destruct (projection_total (VObj entity) Hnull []) as (stripped & H).
  exists stripped. rewrite removeInternalProperties_reduce.
  split; [exact H|].
  now destruct (reduce_strip_entry_external _ _ _ H eq_refl (NoDup_nil _)).
Qed.

Section ResolverFacts.

Variable EntityNotFound DuplicatePrimaryKey : enum_value.
Variable nativeError : error -> OperationError.
Variable modelName : string.
Variable modelDeclaration : ModelDeclaration.
Variable primaryKey : option string.

Local Abbreviation answer :=
  (Resolvers.withErrors EntityNotFound DuplicatePrimaryKey).
Local Abbreviation status :=
  (getResponseStatusByErrorType EntityNotFound DuplicatePrimaryKey).

Lemma answer_failure handler req e :
  handler req = Resolvers.Throws e ->
  answer handler req
  = [Resolvers.ctx_status (status e);
     Resolvers.ctx_json (VObj [("message", VStr (message e))])].
Proof. intros H. unfold Resolvers.withErrors. now rewrite H. Qed.

Lemma answer_success handler req res :
  handler req = Resolvers.Returns res -> answer handler req = res.
Proof. intros H. unfold Resolvers.withErrors. now rewrite H. Qed.

Lemma project_null_free entity :
  null_free (VObj entity) = true ->
  exists stripped,
    removeInternalProperties entity = Ok stripped /\
    is_external stripped = true /\
    Resolvers.project nativeError (Some entity)
    = Resolvers.Returns (VObj stripped).
Proof.
  intros Hnull.
  destruct (null_free_projection entity Hnull) as (stripped & Hs & Hext).
  exists stripped. split; [exact Hs | split; [exact Hext|]].
  unfold Resolvers.project. now rewrite Hs.
Qed.

End ResolverFacts.

(** X15.  GET on the collection with a query parameter that is not a
    pagination key and whose name the declaration object does not have,
    neither as a declared property nor as a member inherited from
    Object.prototype, is answered with status 400 and a JSON body whose
    message names the model and the first such parameter; the store is not
    consulted. *)
Theorem unknown_parameter_is_answered_400
        (EntityNotFound DuplicatePrimaryKey : enum_value)
        (nativeError : error -> OperationError)
        (modelName : string) (modelDeclaration : ModelDeclaration)
        (findMany : FindManyOptions ->
                    Resolvers.outcome (list (list (string * value))))
        (req : Resolvers.Request)
        (before after : URLSearchParams) (key value : string) :
  HTTPErrorType_BadRequest <> EntityNotFound ->
  HTTPErrorType_BadRequest <> DuplicatePrimaryKey ->
  Resolvers.searchParams req = before ++ (key, value) :: after ->
  (forall k v, In (k, v) before ->
               includes paginationKeys k = true \/
               declaration_has modelDeclaration k = true) ->
  includes paginationKeys key = false ->
  declaration_has modelDeclaration key = false ->
  Resolvers.withErrors EntityNotFound DuplicatePrimaryKey
    (Resolvers.listResolver nativeError modelName modelDeclaration findMany)
    req
  = [Resolvers.ctx_status 400;
     Resolvers.ctx_json
       (VObj [("message",
               VStr ("Failed to query the " ++ Resolvers.quoted modelName
                     ++ " model: unknown property " ++ Resolvers.quoted key
                     ++ ".")%string)])].
Proof.
  intros Hnf Hdup Hparams Hbefore Hkey Hdecl.
  rewrite (answer_failure _ _ _ _ (Resolvers.badRequest modelName key)).
  - unfold getResponseStatusByErrorType. simpl type.
    rewrite (type_is_false (Some HTTPErrorType_BadRequest) EntityNotFound)
      by congruence.
    rewrite (type_is_false (Some HTTPErrorType_BadRequest) DuplicatePrimaryKey)
      by congruence.
    reflexivity.
  - unfold Resolvers.listResolver, listOptions. rewrite Hparams.
    rewrite (getFilters_first_unknown modelName modelDeclaration before after
               key value Hbefore Hkey Hdecl).
    reflexivity.
Qed.

Lemma unknown_parameter_is_answered_400_witness :
  Resolvers.withErrors (EnumStr "EntityNotFound") (EnumStr "DuplicatePrimaryKey")
    (Resolvers.listResolver
       (fun _ => {| type := None; message := "native" |})
       "user" Examples.userDeclaration
       (fun _ => Resolvers.Returns []))
    {| Resolvers.searchParams := [("firstName", "Ann"); ("age", "7")];
       Resolvers.params := [];
       Resolvers.body := VUndefined |}
  = [Resolvers.ctx_status 400;
     Resolvers.ctx_json
       (VObj [("message",
               VStr ("Failed to query the " ++ Resolvers.quoted "user"
                     ++ " model: unknown property " ++ Resolvers.quoted "age"
                     ++ ".")%string)])].
Proof.
  apply (unknown_parameter_is_answered_400 _ _ _ _ _ _ _
           [("firstName", "Ann")] [] "age" "7").
  - discriminate.
  - discriminate.
  - reflexivity.
  - intros k v [H | []]. inversion H; subst. right. reflexivity.
  - reflexivity.
  - reflexivity.
Defined.

(** X16.  GET on the collection, when the query string translates and the
    store returns records that hold no null, is answered with one JSON
    array and no status transformer: the array holds, in the order of the
    records, the projection of each record.  In each projection no key
    begins with two underscores, no value is null or an object with a
    __type key, and no array value has an element that is null or an object
    with a __type key; what lies inside objects without a __type key is
    not constrained. *)
Theorem collection_is_answered_with_projections
        (EntityNotFound DuplicatePrimaryKey : enum_value)
        (nativeError : error -> OperationError)
        (modelName : string) (modelDeclaration : ModelDeclaration)
        (findMany : FindManyOptions ->
                    Resolvers.outcome (list (list (string * value))))
        (req : Resolvers.Request) (options : FindManyOptions)
        (records : list (list (string * value))) :
  listOptions modelName modelDeclaration (Resolvers.searchParams req)
  = Ok options ->
  findMany options = Resolvers.Returns records ->
  Forall (fun record => null_free (VObj record) = true) records ->
  exists bodies,
    Resolvers.withErrors EntityNotFound DuplicatePrimaryKey
      (Resolvers.listResolver nativeError modelName modelDeclaration findMany)
      req
    = [Resolvers.ctx_json (VArr (map VObj bodies))] /\
    Forall2 (fun record stripped =>
               removeInternalProperties record = Ok stripped /\
               is_external stripped = true)
            records bodies.
Proof.
  intros Hoptions Hfind Hnull.
  destruct (map_result_total removeInternalProperties records)
    as (bodies & Hbodies).
  { eapply Forall_impl; [|exact Hnull]. intros record Hr.
    destruct (null_free_projection record Hr) as (stripped & Hs & _). eauto. }
  exists bodies. split.
  - apply answer_success. unfold Resolvers.listResolver.
    rewrite Hoptions. simpl. rewrite Hfind. simpl. now rewrite Hbodies.
  - apply map_result_Forall2 in Hbodies.
    clear Hoptions Hfind. induction Hbodies as [|record stripped ? ? Hs _ IH].
    + constructor.
    + inversion Hnull; subst. constructor; [|now apply IH].
      split; [exact Hs|].
      rewrite removeInternalProperties_reduce in Hs.
      now destruct (reduce_strip_entry_external _ _ _ Hs eq_refl (NoDup_nil _)).
Qed.

Lemma collection_is_answered_with_projections_witness :
  exists bodies,
    Resolvers.withErrors (EnumStr "EntityNotFound")
      (EnumStr "DuplicatePrimaryKey")
      (Resolvers.listResolver
         (fun _ => {| type := None; message := "native" |})
         "post" Examples.postDeclaration
         (fun _ => Resolvers.Returns [Examples.storedPost]))
      {| Resolvers.searchParams := [("take", "1")];
         Resolvers.params := [];
         Resolvers.body := VUndefined |}
    = [Resolvers.ctx_json (VArr (map VObj bodies))] /\
    Forall2 (fun record stripped =>
               removeInternalProperties record = Ok stripped /\
               is_external stripped = true)
            [Examples.storedPost] bodies.
Proof.
  eapply (collection_is_answered_with_projections _ _ _
            "post" Examples.postDeclaration
            (fun _ => Resolvers.Returns [Examples.storedPost])).
  - reflexivity.
  - reflexivity.
  - repeat constructor.
Defined.

(** X17.  The resolvers look an entity up strictly, by the primary key and
    the id of the request, and answer what the store throws by its type:
    when the store throws EntityNotFound, GET, PUT and DELETE on one
    entity answer with status 404 and the message of the failure; when it
    throws DuplicatePrimaryKey, POST and PUT answer with status 409 and the
    message of the failure. *)
Theorem store_failure_is_answered_by_type
        (EntityNotFound DuplicatePrimaryKey : enum_value)
        (nativeError : error -> OperationError)
        (primaryKey : option string)
        (findFirst update delete :
           Resolvers.Query ->
           Resolvers.outcome (option (list (string * value))))
        (create : value -> Resolvers.outcome (list (string * value)))
        (req : Resolvers.Request) (e : OperationError) :
  let answer := Resolvers.withErrors EntityNotFound DuplicatePrimaryKey in
  let failed code :=
    [Resolvers.ctx_status code;
     Resolvers.ctx_json (VObj [("message", VStr (message e))])] in
  let byId d :=
    {| Resolvers.strict := true;
       Resolvers.where_ := Resolvers.whereId primaryKey req;
       Resolvers.data := d |} in
  (type e = Some EntityNotFound ->
   (findFirst (byId None) = Resolvers.Throws e ->
    answer (Resolvers.getResolver nativeError primaryKey findFirst) req
    = failed 404%Z) /\
   (update (byId (Some (Resolvers.body req))) = Resolvers.Throws e ->
    answer (Resolvers.putResolver nativeError primaryKey update) req
    = failed 404%Z) /\
   (delete (byId None) = Resolvers.Throws e ->
    answer (Resolvers.deleteResolver nativeError primaryKey delete) req
    = failed 404%Z)) /\
  (EntityNotFound <> DuplicatePrimaryKey ->
   type e = Some DuplicatePrimaryKey ->
   (create (Resolvers.body req) = Resolvers.Throws e ->
    answer (Resolvers.postResolver nativeError create) req = failed 409%Z) /\
   (update (byId (Some (Resolvers.body req))) = Resolvers.Throws e ->
    answer (Resolvers.putResolver nativeError primaryKey update) req
    = failed 409%Z)).
Proof.
  intros answer failed byId. subst answer failed byId. split.
  - intros Htype.
    assert (Hstatus : getResponseStatusByErrorType EntityNotFound
                        DuplicatePrimaryKey e = 404%Z).
    { unfold getResponseStatusByErrorType.
      now rewrite (proj2 (type_is_true _ _) Htype). }
    split; [|split]; intros Hstore;
      rewrite (answer_failure _ _ _ _ e), Hstatus; try reflexivity.
    + unfold Resolvers.getResolver. now rewrite Hstore.
    + unfold Resolvers.putResolver. now rewrite Hstore.
    + unfold Resolvers.deleteResolver. now rewrite Hstore.
  - intros Hdistinct Htype.
    assert (Hstatus : getResponseStatusByErrorType EntityNotFound
                        DuplicatePrimaryKey e = 409%Z).
    { unfold getResponseStatusByErrorType.
      rewrite (type_is_false (type e) EntityNotFound) by congruence.
      now rewrite (proj2 (type_is_true _ _) Htype). }
    split; intros Hstore;
      rewrite (answer_failure _ _ _ _ e), Hstatus; try reflexivity.
    + unfold Resolvers.postResolver. now rewrite Hstore.
    + unfold Resolvers.putResolver. now rewrite Hstore.
Qed.

Lemma store_failure_is_answered_by_type_witness :
  let notFound :=
    {| type := Some (EnumStr "EntityNotFound");
       message := "no user matches the query" |} in
  Resolvers.withErrors (EnumStr "EntityNotFound")
    (EnumStr "DuplicatePrimaryKey")
    (Resolvers.getResolver (fun _ => {| type := None; message := "native" |})
       (Some "id") (fun _ => Resolvers.Throws notFound))
    {| Resolvers.searchParams := [];
       Resolvers.params := [("id", "user-9")];
       Resolvers.body := VUndefined |}
  = [Resolvers.ctx_status 404;
     Resolvers.ctx_json
       (VObj [("message", VStr "no user matches the query")])].
Proof.
  intros notFound.
  destruct (store_failure_is_answered_by_type
              (EnumStr "EntityNotFound") (EnumStr "DuplicatePrimaryKey")
              (fun _ => {| type := None; message := "native" |})
              (Some "id")
              (fun _ => Resolvers.Throws notFound)
              (fun _ => Resolvers.Throws notFound)
              (fun _ => Resolvers.Throws notFound)
              (fun _ => Resolvers.Throws notFound)
              {| Resolvers.searchParams := [];
                 Resolvers.params := [("id", "user-9")];
                 Resolvers.body := VUndefined |}
              notFound) as (Hmissing & _).
  destruct (Hmissing eq_refl) as (Hget & _).
  apply Hget. reflexivity.
Defined.

(** X18.  When the store returns an entity that holds no null, the
    resolvers answer with its projection: GET, PUT and DELETE on one
    entity with the JSON body alone, POST with status 201 followed by the
    JSON body.  In the projection no key begins with two underscores, no
    value is null or an object with a __type key, and no array value has an
    element that is null or an object with a __type key; what lies inside
    objects without a __type key is not constrained. *)
Theorem entity_is_answered_with_projection
        (EntityNotFound DuplicatePrimaryKey : enum_value)
        (nativeError : error -> OperationError)
        (primaryKey : option string)
        (findFirst update delete :
           Resolvers.Query ->
           Resolvers.outcome (option (list (string * value))))
        (create : value -> Resolvers.outcome (list (string * value)))
        (req : Resolvers.Request) (entity : list (string * value)) :
  null_free (VObj entity) = true ->
  let answer := Resolvers.withErrors EntityNotFound DuplicatePrimaryKey in
  let byId d :=
    {| Resolvers.strict := true;
       Resolvers.where_ := Resolvers.whereId primaryKey req;
       Resolvers.data := d |} in
  exists stripped,
    removeInternalProperties entity = Ok stripped /\
    is_external stripped = true /\
    (findFirst (byId None) = Resolvers.Returns (Some entity) ->
     answer (Resolvers.getResolver nativeError primaryKey findFirst) req
     = [Resolvers.ctx_json (VObj stripped)]) /\
    (create (Resolvers.body req) = Resolvers.Returns entity ->
     answer (Resolvers.postResolver nativeError create) req
     = [Resolvers.ctx_status 201; Resolvers.ctx_json (VObj stripped)]) /\
    (update (byId (Some (Resolvers.body req)))
     = Resolvers.Returns (Some entity) ->
     answer (Resolvers.putResolver nativeError primaryKey update) req
     = [Resolvers.ctx_json (VObj stripped)]) /\
    (delete (byId None) = Resolvers.Returns (Some entity) ->
     answer (Resolvers.deleteResolver nativeError primaryKey delete) req
     = [Resolvers.ctx_json (VObj stripped)]).
Proof.
  intros Hnull answer byId. subst answer byId.
  destruct (project_null_free nativeError entity Hnull)
    as (stripped & Hs & Hext & Hproject).
  exists stripped. split; [exact Hs | split; [exact Hext|]].
  split; [|split; [|split]]; intros Hstore; apply answer_success.
  - unfold Resolvers.getResolver. rewrite Hstore.
    unfold Resolvers.andThen at 1. now rewrite Hproject.
  - unfold Resolvers.postResolver. rewrite Hstore.
    unfold Resolvers.andThen at 1. now rewrite Hproject.
  - unfold Resolvers.putResolver. rewrite Hstore.
    unfold Resolvers.andThen at 1. now rewrite Hproject.
  - unfold Resolvers.deleteResolver. rewrite Hstore.
    unfold Resolvers.andThen at 1. now rewrite Hproject.
Qed.

Lemma entity_is_answered_with_projection_witness :
  exists stripped,
    removeInternalProperties Examples.storedPost = Ok stripped /\
    Resolvers.withErrors (EnumStr "EntityNotFound")
      (EnumStr "DuplicatePrimaryKey")
      (Resolvers.postResolver
         (fun _ => {| type := None; message := "native" |})
         (fun _ => Resolvers.Returns Examples.storedPost))
      {| Resolvers.searchParams := [];
         Resolvers.params := [];
         Resolvers.body := VObj [("id", VStr "post-1")] |}
    = [Resolvers.ctx_status 201; Resolvers.ctx_json (VObj stripped)].
Proof.
  destruct (entity_is_answered_with_projection
              (EnumStr "EntityNotFound") (EnumStr "DuplicatePrimaryKey")
              (fun _ => {| type := None; message := "native" |})
              (Some "id")
              (fun _ => Resolvers.Returns (Some Examples.storedPost))
              (fun _ => Resolvers.Returns (Some Examples.storedPost))
              (fun _ => Resolvers.Returns (Some Examples.storedPost))
              (fun _ => Resolvers.Returns Examples.storedPost)
              {| Resolvers.searchParams := [];
                 Resolvers.params := [];
                 Resolvers.body := VObj [("id", VStr "post-1")] |}
              Examples.storedPost eq_refl)
    as (stripped & Hs & _ & _ & Hpost & _).
  exists stripped. split; [exact Hs|]. apply Hpost. reflexivity.
Defined.

(** * When the parse succeeds *)

Section ParseSucceeds.

Variable findPrimaryKey : option ModelDeclaration -> option (option string).
Variable dictionary : ModelDictionary.
Variable modelName : string.
Variable declaration : ModelDeclaration.
Variable initialValues : option (list (string * value)).

Hypothesis distinct_names : NoDup (keys declaration).
Hypothesis resolver_total : forall target, findPrimaryKey target <> None.
Hypothesis relations_supplied :
  forall key d,
    In (key, d) declaration -> has_kind d = true ->
    nullish (initial_value initialValues key) = false.
Hypothesis arrays_hold_entities :
  forall key target unique items,
    In (key, RelationDecl ManyOf target unique) declaration ->
    initial_value initialValues key = VArr items ->
    Forall (fun item => nullish item = false) items.
Hypothesis plain_test_returns :
  forall key d,
    In (key, d) declaration -> has_isPrimaryKey d = false ->
    is_plain_initial_value (initial_value initialValues key) <> Err TypeError.

Local Abbreviation step :=
  (reducer findPrimaryKey dictionary modelName declaration initialValues).




End ParseSucceeds.


